(** * Integration Test Scenario Extractor: a verified model of [main.py]

    The program is a single Streamlit page.  It decodes an uploaded
    document ([read_text]), asks a hosted model for one forced tool call
    ([extract_scenarios_with_function_call]), normalises the scenarios
    the model returned into table rows, and renders them.

    Python values are embedded as follows.
    - A [str] is a list of Unicode code points ([pystr]); the ASCII
      literals of the source are written with [lit].
    - The result of [json.loads] is a [json] value; a [dict] keeps its
      items in insertion order.
    - A Python exception is a value of [exn]; code that may raise returns
      a [result].
    - The Streamlit page, the process environment and the requests sent
      to the model service form a [world] that is threaded through the
      effectful code by the monad [M]. *)

From Stdlib Require Import ZArith NArith List Ascii String Lia SpecFloat.
From Stdlib.Strings Require Import Byte.
From stdpp Require Import base option list gmap.

Local Open Scope N_scope.

(** ** Python strings *)

Definition pystr : Type := list N.

(** An ASCII literal of the source as a Python string. *)
Definition lit (s : string) : pystr := map N_of_ascii (list_ascii_of_string s).

Fixpoint str_eqb (a b : pystr) : bool :=
  match a, b with
  | [], [] => true
  | x :: a', y :: b' => (x =? y) && str_eqb a' b'
  | _, _ => false
  end.

(** [str.isspace] on one code point: the characters CPython classifies as
    whitespace, which are the ones [str.strip()] removes. *)
Definition isspace (c : N) : bool :=
  ((0x09 <=? c) && (c <=? 0x0D))
  || ((0x1C <=? c) && (c <=? 0x20))
  || (c =? 0x85) || (c =? 0xA0) || (c =? 0x1680)
  || ((0x2000 <=? c) && (c <=? 0x200A))
  || (c =? 0x2028) || (c =? 0x2029) || (c =? 0x202F)
  || (c =? 0x205F) || (c =? 0x3000).

Fixpoint lstrip (s : pystr) : pystr :=
  match s with
  | [] => []
  | c :: s' => if isspace c then lstrip s' else s
  end.

Definition rstrip (s : pystr) : pystr := rev (lstrip (rev s)).

(** [s.strip()] *)
Definition strip (s : pystr) : pystr := rstrip (lstrip s).

(** [sep.join(xs)] *)
Fixpoint join (sep : pystr) (xs : list pystr) : pystr :=
  match xs with
  | [] => []
  | x :: rest =>
      match rest with
      | [] => x
      | _ :: _ => x ++ sep ++ join sep rest
      end
  end.

(** ** Values produced by [json.loads] *)

#[local] Set Warnings "-register-all".

Inductive json : Type :=
| JNull                                  (* None *)
| JBool (b : bool)                       (* True / False *)
| JInt (n : Z)                           (* int *)
| JFloat (f : spec_float)                (* float, including nan and inf *)
| JStr (s : pystr)                       (* str *)
| JList (l : list json)                  (* list *)
| JObj (d : list (pystr * json)).        (* dict, items in insertion order *)

(** Python truthiness, as used by [or], [not] and [if]. *)
Definition truthy (v : json) : bool :=
  match v with
  | JNull => false
  | JBool b => b
  | JInt n => negb (n =? 0)%Z
  | JFloat (S754_zero _) => false
  | JFloat _ => true
  | JStr [] => false
  | JStr (_ :: _) => true
  | JList [] => false
  | JList (_ :: _) => true
  | JObj [] => false
  | JObj (_ :: _) => true
  end.

(** [a or b] *)
Definition py_or (a b : json) : json := if truthy a then a else b.

(** [isinstance(v, list)] *)
Definition isinstance_list (v : json) : bool :=
  match v with JList _ => true | _ => false end.

(** The item stored under a key, if any.  The first binding of a key is
    the dict's item for it. *)
Fixpoint dict_lookup (d : list (pystr * json)) (k : pystr) : option json :=
  match d with
  | [] => None
  | (k', v) :: d' => if str_eqb k' k then Some v else dict_lookup d' k
  end.

(** [d.get(k, dflt)] *)
Definition dict_get (d : list (pystr * json)) (k : pystr) (dflt : json) : json :=
  match dict_lookup d k with
  | Some v => v
  | None => dflt
  end.

(** The keys of a dict in insertion order, each once. *)
Fixpoint dict_keys (d : list (pystr * json)) : list pystr :=
  match d with
  | [] => []
  | (k, _) :: d' => k :: List.filter (fun k' => negb (str_eqb k k')) (dict_keys d')
  end.

(** ** Exceptions *)

(** The exceptions the script can meet, all subclasses of [Exception]:
    the ones raised by the code and the built-ins it calls, the errors of
    the client library, and any other raised by a library (pandas,
    Streamlit), by class name and message. *)
Inductive exn : Type :=
| RuntimeError (msg : pystr)
| AttributeError
| TypeError
| IndexError
| JSONDecodeError
| UnicodeDecodeError
| UnicodeEncodeError
| OpenAIError (msg : pystr)
| OtherException (class_name msg : pystr).

Inductive result (A : Type) : Type :=
| Ok (a : A)
| Raise (e : exn).

Arguments Ok {A} a.
Arguments Raise {A} e.

Definition rbind {A B : Type} (r : result A) (k : A -> result B) : result B :=
  match r with
  | Ok a => k a
  | Raise e => Raise e
  end.

Notation "'let?' x ':=' r 'in' k" := (rbind r (fun x => k))
  (at level 10, x name, r at level 100, k at level 200).

(** ** Iteration and the join of module names *)

(** [for m in v]: the items a value yields, or [TypeError] when it is not
    iterable.  A [str] yields its characters, a [dict] its keys. *)
Definition py_iter (v : json) : result (list json) :=
  match v with
  | JList l => Ok l
  | JStr s => Ok (map (fun c => JStr [c]) s)
  | JObj d => Ok (map JStr (dict_keys d))
  | JNull | JBool _ | JInt _ | JFloat _ => Raise TypeError
  end.

(** The truth value of [str(m).strip()].  For a [str] it is whether the
    trimmed string is non-empty.  [str] of any other value (['None'],
    ['True'], a number's digits, a bracketed list or dict) contains no
    whitespace-only text, so the result is true. *)
Definition str_strip_truthy (m : json) : bool :=
  match m with
  | JStr s => match strip s with [] => false | _ :: _ => true end
  | _ => true
  end.

(** [m.strip()]: only a [str] has the method. *)
Definition method_strip (m : json) : result pystr :=
  match m with
  | JStr s => Ok (strip s)
  | _ => Raise AttributeError
  end.

(** [[m.strip() for m in modules if str(m).strip()]] over the items that
    [modules] yields. *)
Fixpoint stripped_names (items : list json) : result (list pystr) :=
  match items with
  | [] => Ok []
  | m :: rest =>
      if str_strip_truthy m then
        let? x := method_strip m in
        let? xs := stripped_names rest in
        Ok (x :: xs)
      else stripped_names rest
  end.

Definition not_specified : pystr := lit "Not specified in document".

(** One normalised row.  The fields are the values stored under the keys
    "Requirement Location (as per document)", "Integration Flow Summary",
    "Related Modules/Functions/Systems", "Test Scenario (Integration)" and
    "Main/Alternate/Exception Flow". *)
Record row : Type := {
  loc : json;
  summary : json;
  related : pystr;
  scenario : json;
  ftype : json
}.

Definition columns : list pystr :=
  [ lit "Requirement Location (as per document)";
    lit "Integration Flow Summary";
    lit "Related Modules/Functions/Systems";
    lit "Test Scenario (Integration)";
    lit "Main/Alternate/Exception Flow" ].

Definition k_requirement_location : pystr := lit "requirement_location".
Definition k_integration_flow_summary : pystr := lit "integration_flow_summary".
Definition k_related : pystr := lit "related_modules_functions_systems".
Definition k_test_scenario_integration : pystr := lit "test_scenario_integration".
Definition k_flow_type : pystr := lit "flow_type".

(** [s.get(k, dflt)]: only a [dict] has the method.  [s.get(k)] is
    [s.get(k, None)]. *)
Definition method_get (s : json) (k : pystr) (dflt : json) : result json :=
  match s with
  | JObj d => Ok (dict_get d k dflt)
  | _ => Raise AttributeError
  end.

(** The body of the normalisation loop for one element [s]:
    [Ok None] is [continue], [Ok (Some r)] is [norm.append(r)]. *)
Definition loop_body (s : json) : result (option row) :=
  let? v := method_get s k_requirement_location JNull in
  let loc := py_or v (JStr not_specified) in
  let? v := method_get s k_integration_flow_summary JNull in
  let summary := py_or v (JStr not_specified) in
  let? v := method_get s k_related JNull in
  let modules := py_or v (JList []) in
  if isinstance_list modules
     && match modules with JList l => (length l <? 2)%nat | _ => false end
  then Ok None
  else
    let? v := method_get s k_test_scenario_integration JNull in
    let scenario := py_or v (JStr not_specified) in
    let? v := method_get s k_flow_type JNull in
    let ftype := py_or v (JStr not_specified) in
    let? items := py_iter modules in
    let? names := stripped_names items in
    Ok (Some {| loc := loc; summary := summary;
                related := join (lit ", ") names;
                scenario := scenario; ftype := ftype |}).

(** [for s in scenarios: ...] with the accumulator [norm]. *)
Fixpoint normalize (scenarios : list json) (norm : list row) : result (list row) :=
  match scenarios with
  | [] => Ok norm
  | s :: rest =>
      match loop_body s with
      | Raise e => Raise e
      | Ok None => normalize rest norm
      | Ok (Some r) => normalize rest (norm ++ [r])
      end
  end.

(** ** The UTF-8 codec of [bytes.decode] and [str.encode] *)

Inductive error_handler : Type :=
| Strict      (* errors="strict" *)
| Replace.    (* errors="replace" *)

Definition is_continuation (b : N) : bool := (0x80 <=? b) && (b <? 0xC0).

(** What the decoder does with an undecodable stretch of input:
    ["strict"] raises; ["replace"] puts U+FFFD and resumes after it. *)
Definition on_error (errors : error_handler) (resume : result pystr) : result pystr :=
  match errors with
  | Strict => Raise UnicodeDecodeError
  | Replace => let? s := resume in Ok (0xFFFD :: s)
  end.

Definition emit (ch : N) (resume : result pystr) : result pystr :=
  let? s := resume in Ok (ch :: s).

(** [bs.decode("utf-8", errors=...)], following CPython's decoder: an
    invalid start byte is one stretch, a lead byte with a wrong
    continuation is a stretch that ends before the offending byte, and a
    sequence cut off by the end of the input is one stretch. *)
Fixpoint utf8_decode (errors : error_handler) (s : list byte) {struct s} : result pystr :=
  match s with
  | [] => Ok []
  | c1 :: s1 =>
      let ch := Byte.to_N c1 in
      if ch <? 0x80 then emit ch (utf8_decode errors s1)
      else if ch <? 0xC2 then on_error errors (utf8_decode errors s1)
      else if ch <? 0xE0 then
        match s1 with
        | [] => on_error errors (Ok [])
        | c2 :: s2 =>
            let ch2 := Byte.to_N c2 in
            if negb (is_continuation ch2)
            then on_error errors (utf8_decode errors s1)
            else emit (N.shiftl ch 6 + ch2 - (N.shiftl 0xC0 6 + 0x80))
                      (utf8_decode errors s2)
        end
      else if ch <? 0xF0 then
        match s1 with
        | [] => on_error errors (Ok [])
        | c2 :: s2 =>
            let ch2 := Byte.to_N c2 in
            if negb (is_continuation ch2)
               || (if ch2 <? 0xA0 then ch =? 0xE0 else ch =? 0xED)
            then on_error errors (utf8_decode errors s1)
            else
              match s2 with
              | [] => on_error errors (Ok [])
              | c3 :: s3 =>
                  let ch3 := Byte.to_N c3 in
                  if negb (is_continuation ch3)
                  then on_error errors (utf8_decode errors s2)
                  else emit (N.shiftl ch 12 + N.shiftl ch2 6 + ch3
                             - (N.shiftl 0xE0 12 + N.shiftl 0x80 6 + 0x80))
                            (utf8_decode errors s3)
              end
        end
      else if ch <? 0xF5 then
        match s1 with
        | [] => on_error errors (Ok [])
        | c2 :: s2 =>
            let ch2 := Byte.to_N c2 in
            if negb (is_continuation ch2)
               || (if ch2 <? 0x90 then ch =? 0xF0 else ch =? 0xF4)
            then on_error errors (utf8_decode errors s1)
            else
              match s2 with
              | [] => on_error errors (Ok [])
              | c3 :: s3 =>
                  let ch3 := Byte.to_N c3 in
                  if negb (is_continuation ch3)
                  then on_error errors (utf8_decode errors s2)
                  else
                    match s3 with
                    | [] => on_error errors (Ok [])
                    | c4 :: s4 =>
                        let ch4 := Byte.to_N c4 in
                        if negb (is_continuation ch4)
                        then on_error errors (utf8_decode errors s3)
                        else emit (N.shiftl ch 18 + N.shiftl ch2 12
                                   + N.shiftl ch3 6 + ch4
                                   - (N.shiftl 0xF0 18 + N.shiftl 0x80 12
                                      + N.shiftl 0x80 6 + 0x80))
                                  (utf8_decode errors s4)
                    end
              end
        end
      else on_error errors (utf8_decode errors s1)
  end.

Definition byte_of_N (n : N) : byte :=
  match Byte.of_N n with
  | Some b => b
  | None => x00
  end.

(** The UTF-8 bytes of one code point; a surrogate cannot be encoded. *)
Definition utf8_encode_char (c : N) : result (list byte) :=
  if c <? 0x80 then Ok [byte_of_N c]
  else if c <? 0x800 then
    Ok [byte_of_N (N.lor 0xC0 (N.shiftr c 6));
        byte_of_N (N.lor 0x80 (N.land c 0x3F))]
  else if (0xD800 <=? c) && (c <=? 0xDFFF) then Raise UnicodeEncodeError
  else if c <? 0x10000 then
    Ok [byte_of_N (N.lor 0xE0 (N.shiftr c 12));
        byte_of_N (N.lor 0x80 (N.land (N.shiftr c 6) 0x3F));
        byte_of_N (N.lor 0x80 (N.land c 0x3F))]
  else
    Ok [byte_of_N (N.lor 0xF0 (N.shiftr c 18));
        byte_of_N (N.lor 0x80 (N.land (N.shiftr c 12) 0x3F));
        byte_of_N (N.lor 0x80 (N.land (N.shiftr c 6) 0x3F));
        byte_of_N (N.lor 0x80 (N.land c 0x3F))].

(** [s.encode("utf-8")] *)
Fixpoint utf8_encode (s : pystr) : result (list byte) :=
  match s with
  | [] => Ok []
  | c :: s' =>
      let? bs := utf8_encode_char c in
      let? rest := utf8_encode s' in
      Ok (bs ++ rest)
  end.

(** ** The document loader *)

(** An uploaded file: its bytes and the read position. *)
Record file : Type := {
  content : list byte;
  position : nat
}.

(** [file.read()]: the bytes from the position to the end; the position
    moves to the end. *)
Definition file_read (f : file) : list byte * file :=
  (drop (position f) (content f),
   {| content := content f;
      position := Nat.max (position f) (length (content f)) |}).

Definition read_text (f : file) : result pystr * file :=
  let (bs, f1) := file_read f in
  match utf8_decode Replace bs with
  | Ok text => (Ok text, f1)
  | Raise _ =>
      let (bs', f2) := file_read f1 in
      (utf8_decode Replace bs', f2)
  end.

(** ** The request sent to the model service *)

Definition nl : pystr := [0x0A].

Definition system_prompt : pystr :=
  lit "You are a senior test analyst specializing in INTEGRATION scenario extraction with a big-picture, end-to-end perspective." ++ nl
  ++ lit "Goal: From the provided document, extract ONLY integration flows that span TWO OR MORE modules/functions/systems, emphasizing high-level business journeys and cross-system interactions." ++ nl ++ nl
  ++ lit "BIGGER-PICTURE RULES:" ++ nl
  ++ lit "1) Prioritize end-to-end outcomes and system-to-system interactions. Collapse granular UI/internal steps into higher-level actions." ++ nl
  ++ lit "2) Do NOT invent or assume anything not in the document. If something is missing or ambiguous, use 'Not specified in document'." ++ nl
  ++ lit "3) Include main (happy) flows, and only alternates/exceptions that materially change cross-system interactions, data contracts, or outcomes." ++ nl
  ++ lit "4) Skip single-module/unit-level items and minor step variations that do not affect integrations." ++ nl
  ++ lit "5) Each scenario must be clear for stakeholders and highlight participating systems and the core integration touchpoints; when mentioned in the source, note APIs/events/queues/identity propagation/data mapping; otherwise use 'Not specified in document'." ++ nl
  ++ lit "6) 'Requirement Location' should clearly help the reader find the source: section/heading names or a short quoted phrase if no headings." ++ nl
  ++ lit "7) Output MUST be a single function call to submit_integration_scenarios." ++ nl.

Definition user_prompt (doc_text : pystr) : pystr :=
  lit "Extract integration test scenarios based ONLY on the document below." ++ nl
  ++ lit "Focus on the bigger picture: end-to-end flows with 2+ modules/functions/systems and core cross-system interactions. Merge micro-steps; keep a minimal, comprehensive set of scenarios. No inventions"
  ++ [0x2014] ++ lit "if unknown, write 'Not specified in document'." ++ nl
  ++ lit "Return as an array of objects via the function call." ++ nl
  ++ nl ++ lit "--- DOCUMENT START ---" ++ nl
  ++ doc_text ++ nl
  ++ lit "--- DOCUMENT END ---" ++ nl.

(** The arguments of [client.chat.completions.create].  The tool schema
    is a constant of the program and is represented by the name of its
    only function, which [tool_choice] forces. *)
Record request : Type := {
  model : pystr;
  messages : list (pystr * pystr);      (* role, content *)
  tools : list pystr;
  tool_choice : pystr
}.

Definition build_request (doc_text : pystr) : request :=
  {| model := lit "gpt-4.1";
     messages := [ (lit "system", system_prompt);
                   (lit "user", user_prompt doc_text) ];
     tools := [ lit "submit_integration_scenarios" ];
     tool_choice := lit "submit_integration_scenarios" |}.

(** The part of a chat completion that the program reads:
    [resp.choices[0].message.tool_calls[0].function.arguments]. *)
Record function_call : Type := { arguments : pystr }.
Record tool_call : Type := { function : function_call }.

(** [tool_calls] is [None] both when the attribute is missing and when it
    is [None]: [getattr(msg, "tool_calls", None)] does not tell them apart. *)
Record message : Type := { tool_calls : option (list tool_call) }.
Record choice : Type := { choice_message : message }.
Record response : Type := { choices : list choice }.

(** [xs[0]] *)
Definition index0 {A : Type} (xs : list A) : result A :=
  match xs with
  | x :: _ => Ok x
  | [] => Raise IndexError
  end.

Definition no_function_call_message : pystr :=
  lit "Model did not return a function call. Try a smaller document or adjust content.".

(** ** The page, the environment and the monad of effects *)

(** A pandas [DataFrame] as far as the page is concerned: the column
    headers and the records under them. *)
Record dataframe : Type := {
  frame_columns : list pystr;
  frame_rows : list row
}.

Inductive widget : Type :=
| st_error (body : pystr)
| st_error_went_wrong (e : exn)     (* st.error(f"Something went wrong: {e}") *)
| st_warning (body : pystr)
| st_success (body : pystr)
| st_info (body : pystr)
| st_spinner (text : pystr)
| st_dataframe (df : dataframe)
| st_download_button (label : pystr) (data : list byte) (file_name mime : pystr).

Record world : Type := {
  environ : gmap (list N) (list N);     (* os.environ *)
  sent : list request;                  (* requests issued to the service *)
  page : list widget                    (* what the page shows, in order *)
}.

Definition M (A : Type) : Type := world -> result A * world.

Definition ret {A : Type} (a : A) : M A := fun w => (Ok a, w).

Definition bind {A B : Type} (m : M A) (k : A -> M B) : M B :=
  fun w =>
    match m w with
    | (Ok a, w') => k a w'
    | (Raise e, w') => (Raise e, w')
    end.

Definition lift {A : Type} (r : result A) : M A := fun w => (r, w).

Notation "'do' x '<-' m ';' k" := (bind m (fun x => k))
  (at level 10, x name, m at level 100, k at level 200).
Notation "'run' m ';' k" := (bind m (fun _ => k))
  (at level 10, m at level 100, k at level 200).

(** [try: body except Exception as e: handler(e)] *)
Definition try_except {A : Type} (body : M A) (handler : exn -> M A) : M A :=
  fun w =>
    match body w with
    | (Ok a, w') => (Ok a, w')
    | (Raise e, w') => handler e w'
    end.

(** [os.getenv(name)] *)
Definition getenv (name : pystr) : M (option pystr) :=
  fun w => (Ok (environ w !! name), w).

Definition show (x : widget) : M unit :=
  fun w => (Ok tt, {| environ := environ w; sent := sent w; page := page w ++ [x] |}).

Definition OPENAI_API_KEY : pystr := lit "OPENAI_API_KEY".

(** Truthiness of [os.getenv(...)]: [None] and the empty string are false. *)
Definition truthy_env (v : option pystr) : bool :=
  match v with
  | Some (_ :: _) => true
  | _ => false
  end.

(** Truthiness of [tool_calls]: [None] and the empty list are false. *)
Definition truthy_tool_calls (v : option (list tool_call)) : bool :=
  match v with
  | Some (_ :: _) => true
  | _ => false
  end.

(** ** The scenario extractor and the main action *)

Section Program.

(** [json.loads] on a [str]: the parsed value, or [None] when the text
    is not JSON and [JSONDecodeError] is raised. *)
Variable json_loads : pystr -> option json.

(** The hosted model behind [client.chat.completions.create], for a
    client built with a given key. *)
Variable chat_completions_create : pystr -> request -> result response.

(** [OpenAI()] when the environment has no key or an empty one.  What the
    client library does then (it raises, with a text of its own) is the
    library's matter and depends on its version. *)
Variable OpenAI_without_key : option pystr -> result pystr.

(** pandas: [pd.DataFrame(rows, columns=columns)], which builds the frame
    or raises. *)
Variable pd_DataFrame : list row -> list pystr -> result dataframe.

(** Streamlit: whether [st.dataframe(df, ...)] renders the frame or
    raises. *)
Variable st_dataframe_renders : dataframe -> result unit.

(** pandas: [df.to_csv(index=False)]. *)
Variable to_csv : dataframe -> result pystr.

(** [OpenAI()]: the client takes its key from the environment. *)
Definition get_client : M pystr :=
  do key <- getenv OPENAI_API_KEY;
  match key with
  | Some (c :: k) => ret (c :: k)
  | _ => lift (OpenAI_without_key key)
  end.

(** One blocking call to the service; the request is recorded. *)
Definition create (client : pystr) (req : request) : M response :=
  fun w =>
    (chat_completions_create client req,
     {| environ := environ w; sent := sent w ++ [req]; page := page w |}).

Definition loads (text : pystr) : result json :=
  match json_loads text with
  | Some v => Ok v
  | None => Raise JSONDecodeError
  end.

(** From [msg = resp.choices[0].message] to [return norm]. *)
Definition scenarios_of_response (resp : response) : result (list row) :=
  let? c := index0 (choices resp) in
  let msg := choice_message c in
  let calls := tool_calls msg in
  if negb (truthy_tool_calls calls)
  then Raise (RuntimeError no_function_call_message)
  else
    let? call := index0 (default [] calls) in
    let args_str := arguments (function call) in
    let? parsed := loads args_str in
    let? scenarios := method_get parsed (lit "scenarios") (JList []) in
    let? items := py_iter scenarios in
    normalize items [].

Definition extract_scenarios_with_function_call (doc_text : pystr) : M (list row) :=
  do client <- get_client;
  do resp <- create client (build_request doc_text);
  lift (scenarios_of_response resp).

Definition missing_key_message : pystr :=
  lit "OPENAI_API_KEY is not set. Please set it in your environment and retry.".

(** The branch for at least one row: from [df = pd.DataFrame(...)] to the
    download button. *)
Definition publish (rows : list row) : M unit :=
  do df <- lift (pd_DataFrame rows columns);
  run show (st_success (lit "Extraction complete."));
  run lift (st_dataframe_renders df);
  run show (st_dataframe df);
  do text <- lift (to_csv df);
  do csv <- lift (utf8_encode text);
  show (st_download_button (lit "Download CSV") csv
          (lit "integration_test_scenarios.csv") (lit "text/csv")).

(** The body of the [try]. *)
Definition attempt (text : pystr) : M unit :=
  do rows <- extract_scenarios_with_function_call text;
  match rows with
  | [] =>
      show (st_warning (lit "No integration flows found (2+ modules). Check the document content."))
  | _ :: _ => publish rows
  end.

(** The script from [if uploaded:] on.  [uploaded] is the value of the
    file uploader and [button] whether the button was pressed. *)
Definition main_action (uploaded : option file) (button : bool) : M unit :=
  match uploaded with
  | Some f =>
      do text <- lift (fst (read_text f));
      if button then
        do key <- getenv OPENAI_API_KEY;
        if negb (truthy_env key)
        then show (st_error missing_key_message)
        else
          run show (st_spinner (lit "Analyzing document and extracting integration flows..."));
          try_except (attempt text) (fun e => show (st_error_went_wrong e))
      else ret tt
  | None => show (st_info (lit "Please upload a .txt or .md file to begin."))
  end.

End Program.

(** ** Vocabulary of the specification *)

(** The item of a response element under a key: nothing when the key is
    missing (or the element is not an object). *)
Definition field (s : json) (k : pystr) : option json :=
  match s with
  | JObj d => dict_lookup d k
  | _ => None
  end.

(** The value the loop works with as the element's modules:
    [s.get("related_modules_functions_systems") or []]. *)
Definition modules_of (s : json) : json :=
  py_or (default JNull (field s k_related)) (JList []).

(** The default applied to a text field or to the flow classification:
    [s.get(k) or "Not specified in document"]. *)
Definition text_of (s : json) (k : pystr) : json :=
  py_or (default JNull (field s k)) (JStr not_specified).

(** The row appended for an element [s] whose kept module names, already
    trimmed, are [names]. *)
Definition row_of (s : json) (names : list pystr) : row :=
  {| loc := text_of s k_requirement_location;
     summary := text_of s k_integration_flow_summary;
     related := join (lit ", ") names;
     scenario := text_of s k_test_scenario_integration;
     ftype := text_of s k_flow_type |}.

(** A module entry that is not empty after trimming. *)
Definition nonblank (name : pystr) : bool :=
  match strip name with
  | [] => false
  | _ :: _ => true
  end.

(** The row an element contributes to the output, if it contributes one. *)
Definition survivor (s : json) : option row :=
  match loop_body s with
  | Ok (Some r) => Some r
  | _ => None
  end.

(** The number of rows contributed by the elements before position [k]. *)
Definition rank (scenarios : list json) (k : nat) : nat :=
  length (omap survivor (take k scenarios)).

(** The strict and the replacing decoder on the same input: the replacing
    one returns a text, which is the strict one's when that succeeds and
    contains U+FFFD when the strict one raises. *)
Definition replaces (strict replaced : result pystr) : Prop :=
  exists text, replaced = Ok text /\
    (strict = Ok text \/ (strict = Raise UnicodeDecodeError /\ In 0xFFFD text)).

(** A response element whose module list has one name and one blank entry. *)
Definition blank_module_element : json :=
  JObj [ (k_requirement_location, JStr (lit "Section 2"));
         (k_integration_flow_summary, JStr (lit "Order is forwarded to billing"));
         (k_related, JList [JStr (lit "Billing"); JStr (lit "  ")]);
         (k_test_scenario_integration, JStr (lit "Place an order"));
         (k_flow_type, JStr (lit "Main Flow")) ].

(** A response element whose modules are given as the empty string. *)
Definition empty_string_modules_element : json :=
  JObj [ (k_requirement_location, JStr (lit "Section 3"));
         (k_integration_flow_summary, JStr (lit "Invoice is mailed"));
         (k_related, JStr []);
         (k_test_scenario_integration, JStr (lit "Close the month"));
         (k_flow_type, JStr (lit "Alternate")) ].

(** A response element with two modules and nothing else. *)
Definition bare_element : json :=
  JObj [ (k_related, JList [JStr (lit " Cart "); JStr (lit "Payment")]);
         (k_flow_type, JStr []) ].

(** A response element whose modules are given as one string. *)
Definition string_modules_element : json :=
  JObj [ (k_related, JStr (lit "AB")) ].

(** A response element with a blank entry between two module names. *)
Definition blank_middle_element : json :=
  JObj [ (k_requirement_location, JStr (lit "Section 4"));
         (k_related, JList [JStr (lit "A"); JStr (lit " "); JStr (lit "B")]) ].

(** The rows these elements give. *)
Definition blank_middle_row : row := row_of blank_middle_element [lit "A"; lit "B"].
Definition blank_module_row : row := row_of blank_module_element [lit "Billing"].
Definition bare_row : row := row_of bare_element [lit "Cart"; lit "Payment"].
Definition string_modules_row : row := row_of string_modules_element [lit "A"; lit "B"].

(** Sample surroundings: an uploaded file, a world without and with the
    credential, a parser and services with fixed answers. *)
Definition sample_file : file :=
  {| content := [x4f; x72; x64; x65; x72; xff]; position := 0 |}.

Definition bare_world : world :=
  {| environ := ∅; sent := []; page := [] |}.

Definition keyed_world : world :=
  {| environ := {[ OPENAI_API_KEY := lit "sk-test" ]}; sent := []; page := [] |}.

Definition rejecting_loads : pystr -> option json := fun _ => None.

Definition sample_loads : pystr -> option json :=
  fun _ => Some (JObj [ (lit "scenarios", JList [bare_element]) ]).

Definition silent_response : response :=
  {| choices := [ {| choice_message := {| tool_calls := None |} |} ] |}.

Definition calling_response : response :=
  {| choices :=
       [ {| choice_message :=
              {| tool_calls :=
                   Some [ {| function := {| arguments := lit "{}" |} |} ] |} |} ] |}.

Definition silent_service : pystr -> request -> result response :=
  fun _ _ => Ok silent_response.

Definition calling_service : pystr -> request -> result response :=
  fun _ _ => Ok calling_response.

Definition blank_csv : dataframe -> result pystr := fun _ => Ok [].

Definition refusing_client : option pystr -> result pystr :=
  fun _ => Raise (OpenAIError (lit "Missing credentials.")).

Definition plain_DataFrame : list row -> list pystr -> result dataframe :=
  fun rows cols => Ok {| frame_columns := cols; frame_rows := rows |}.

Definition rendering : dataframe -> result unit := fun _ => Ok tt.

Definition refusing_DataFrame : list row -> list pystr -> result dataframe :=
  fun _ _ => Raise UnicodeEncodeError.



(** The text that [read_text] gives for an uploaded file. *)
Definition document (f : file) : pystr :=
  match fst (read_text f) with
  | Ok text => text
  | Raise _ => []
  end.

(** The world after the widgets [ws] were shown and, when [req] is given,
    that request was sent. *)
Definition after (w : world) (req : option request) (ws : list widget) : world :=
  {| environ := environ w;
     sent := sent w ++ match req with Some r => [r] | None => [] end;
     page := page w ++ ws |}.

Definition spinner : widget :=
  st_spinner (lit "Analyzing document and extracting integration flows...").

Definition no_flows_warning : widget :=
  st_warning (lit "No integration flows found (2+ modules). Check the document content.").

Definition extraction_complete : widget := st_success (lit "Extraction complete.").

Definition download_csv (data : list byte) : widget :=
  st_download_button (lit "Download CSV") data
    (lit "integration_test_scenarios.csv") (lit "text/csv").

(** More sample surroundings: a world whose key is the empty string, a
    service that fails, and a service whose answer has an empty array. *)
Definition empty_key_world : world :=
  {| environ := {[ OPENAI_API_KEY := [] ]}; sent := []; page := [] |}.

Definition failing_service : pystr -> request -> result response :=
  fun _ _ => Raise (OpenAIError (lit "Connection error.")).

Definition single_module_loads : pystr -> option json :=
  fun _ => Some (JObj [ (lit "scenarios",
                         JList [JObj [(k_related, JList [JStr (lit "Billing")])]]) ]).

(** An element as the tool schema asks for it, as far as the loop can
    tell: an object whose modules are a list of strings. *)
Definition is_str (m : json) : bool :=
  match m with JStr _ => true | _ => false end.

Definition conforming (s : json) : bool :=
  match field s k_related with
  | Some (JList l) => forallb is_str l
  | _ => false
  end.

(** The number of entries of an element's module list. *)
Definition module_count (s : json) : nat :=
  match field s k_related with
  | Some (JList l) => length l
  | _ => 0%nat
  end.

(** The code points that UTF-8 cannot carry, and the ones a Python
    string may hold that it can. *)
Definition surrogate (c : N) : bool := (0xD800 <=? c) && (c <=? 0xDFFF).

Definition scalar (c : N) : bool := (c <? 0x110000) && negb (surrogate c).

(** A response element whose requirement location is a number. *)
Definition numbered_element : json :=
  JObj [ (k_requirement_location, JInt 7);
         (k_related, JList [JStr (lit "Cart"); JStr (lit "Payment")]) ].

Definition numbered_row : row := row_of numbered_element [lit "Cart"; lit "Payment"].

(** * Properties *)

(** ** The loop body *)

Lemma loop_body_not_object (s : json) :
  (forall d, s <> JObj d) -> loop_body s = Raise AttributeError.
Proof.
  intros Hs. destruct s; try reflexivity. exfalso. eapply Hs. reflexivity.
Qed.

(** The loop body on an object, with the defaults folded into [modules_of]
    and [row_of]. *)
Lemma loop_body_object (d : list (pystr * json)) :
  loop_body (JObj d) =
    match modules_of (JObj d) with
    | JList l =>
        if (length l <? 2)%nat then Ok None
        else let? names := stripped_names l in Ok (Some (row_of (JObj d) names))
    | v =>
        let? items := py_iter v in
        let? names := stripped_names items in
        Ok (Some (row_of (JObj d) names))
    end.
Proof.
  unfold loop_body, modules_of, row_of, text_of, field, method_get, rbind, dict_get.
  destruct (py_or (default JNull (dict_lookup d k_related)) (JList [])) eqn:E;
    unfold default in E; cbn [from_option id] in E; rewrite E; cbn -[lit]; reflexivity.
Qed.

(** The comprehension over a list of strings keeps the entries that are
    not blank and trims them. *)
Lemma stripped_names_strs (names : list pystr) :
  stripped_names (map JStr names) = Ok (map strip (List.filter nonblank names)).
Proof.
  induction names as [|n ns IH]; [reflexivity|].
  cbn [map stripped_names str_strip_truthy method_strip List.filter].
  unfold nonblank at 1. rewrite IH.
  destruct (strip n) eqn:E; [reflexivity|].
  cbn [rbind map]. rewrite E. reflexivity.
Qed.

(** The comprehension raises on an item that is not a string, so when it
    returns every item was one. *)
Lemma stripped_names_ok_strs (items : list json) (names : list pystr) :
  stripped_names items = Ok names -> exists strs, items = map JStr strs.
Proof.
  revert names. induction items as [|m rest IH]; intros names H.
  - exists []. reflexivity.
  - cbn [stripped_names] in H.
    destruct m; cbn [str_strip_truthy method_strip rbind] in H; try discriminate.
    assert (exists ns, stripped_names rest = Ok ns) as [ns Hns].
    { destruct (strip s); [eauto|].
      destruct (stripped_names rest); [eauto|discriminate]. }
    destruct (IH _ Hns) as [strs ->].
    exists (s :: strs). reflexivity.
Qed.


(** What is known of an element that contributed the row [r]. *)
Lemma loop_body_Some_inv (s : json) (r : row) :
  loop_body s = Ok (Some r) ->
  exists v names,
    field s k_related = Some v /\ truthy v = true /\ modules_of s = v /\
    py_iter v = Ok (map JStr names) /\
    r = row_of s (map strip (List.filter nonblank names)) /\
    (forall l, v = JList l -> (2 <= length l)%nat).
Proof.
  intros H.
  destruct s as [| | | | |l0|d];
    try (rewrite loop_body_not_object in H by discriminate; discriminate).
  rewrite loop_body_object in H.
  unfold modules_of, field in *.
  destruct (dict_lookup d k_related) as [v|]; [|discriminate].
  cbn [default from_option id] in *. unfold py_or in *.
  destruct (truthy v) eqn:Hv; [|discriminate].
  exists v.
  assert (exists items, py_iter v = Ok items /\
            (let? names := stripped_names items in Ok (Some (row_of (JObj d) names)))
            = Ok (Some r) /\ (forall l, v = JList l -> (2 <= length l)%nat))
    as (items & Hit & Hn & Hlen).
  { destruct v; cbn [py_iter rbind] in *; try discriminate.
    - eexists; split; [reflexivity|]. split; [exact H|discriminate].
    - destruct (length l <? 2)%nat eqn:Hl; [discriminate|].
      eexists; split; [reflexivity|]. split; [exact H|].
      intros l' [= <-]. apply Nat.ltb_ge in Hl. exact Hl.
    - eexists; split; [reflexivity|]. split; [exact H|discriminate]. }
  destruct (stripped_names items) as [names|] eqn:Hs; [|discriminate].
  destruct (stripped_names_ok_strs _ _ Hs) as [strs ->].
  rewrite stripped_names_strs in Hs. injection Hs as <-.
  cbn [rbind] in Hn. injection Hn as <-.
  exists strs. auto 10.
Qed.


(** The filter of the loop: an element is skipped exactly when the value
    used as its modules is a list of fewer than two entries. *)
Lemma loop_body_skips_iff (s : json) :
  loop_body s = Ok None <->
  exists d l, s = JObj d /\ modules_of s = JList l /\ (length l < 2)%nat.
Proof.
  split.
  - intros H.
    destruct s as [| | | | |l0|d];
      try (rewrite loop_body_not_object in H by discriminate; discriminate).
    rewrite loop_body_object in H.
    destruct (modules_of (JObj d)) eqn:Hm; cbn [py_iter rbind] in H; try discriminate.
    + destruct (stripped_names _); discriminate.
    + destruct (length l <? 2)%nat eqn:Hl.
      * exists d, l. apply Nat.ltb_lt in Hl. auto.
      * destruct (stripped_names _); discriminate.
    + destruct (stripped_names _); discriminate.
  - intros (d & l & -> & Hm & Hl).
    rewrite loop_body_object, Hm.
    apply Nat.ltb_lt in Hl. rewrite Hl. reflexivity.
Qed.

Lemma text_of_missing (s : json) (k : pystr) :
  field s k = None -> text_of s k = JStr (lit "Not specified in document").
Proof. intros H. unfold text_of. rewrite H. reflexivity. Qed.

Lemma text_of_falsy (s : json) (k : pystr) (v : json) :
  field s k = Some v -> truthy v = false ->
  text_of s k = JStr (lit "Not specified in document").
Proof.
  intros H Hv. unfold text_of, py_or. rewrite H.
  cbn [default from_option id]. rewrite Hv. reflexivity.
Qed.

Lemma text_of_truthy (s : json) (k : pystr) : truthy (text_of s k) = true.
Proof.
  unfold text_of, py_or.
  destruct (truthy (default JNull (field s k))) eqn:E; [exact E|reflexivity].
Qed.

Lemma text_of_not_empty (s : json) (k : pystr) : text_of s k <> JStr [].
Proof.
  intros E. pose proof (text_of_truthy s k) as H. rewrite E in H. discriminate.
Qed.

Lemma filter_nonblank_all (names : list pystr) :
  forallb nonblank names = true -> List.filter nonblank names = names.
Proof.
  induction names as [|n ns IH]; [reflexivity|].
  cbn [forallb List.filter]. intros H. apply andb_prop in H as [Hn Hns].
  rewrite Hn, IH by assumption. reflexivity.
Qed.

(** ** Defaults of the text fields *)

(** C4. For an element that survives the module filter, each of the three
    text fields (requirement location, flow summary, test scenario) and the
    flow classification that is missing from the element is, in the output
    row, exactly the string "Not specified in document". *)
Theorem missing_field_defaults (s : json) (r : row) :
  loop_body s = Ok (Some r) ->
  (field s k_requirement_location = None ->
     loc r = JStr (lit "Not specified in document")) /\
  (field s k_integration_flow_summary = None ->
     summary r = JStr (lit "Not specified in document")) /\
  (field s k_test_scenario_integration = None ->
     scenario r = JStr (lit "Not specified in document")) /\
  (field s k_flow_type = None ->
     ftype r = JStr (lit "Not specified in document")).
Proof.
  intros H. apply loop_body_Some_inv in H as (v & names & _ & _ & _ & _ & -> & _).
  cbn [row_of loc summary scenario ftype].
  repeat split; apply text_of_missing.
Qed.

Lemma missing_field_defaults_witness :
  loop_body bare_element = Ok (Some bare_row) /\
  ((field bare_element k_requirement_location = None ->
      loc bare_row = JStr (lit "Not specified in document")) /\
   (field bare_element k_integration_flow_summary = None ->
      summary bare_row = JStr (lit "Not specified in document")) /\
   (field bare_element k_test_scenario_integration = None ->
      scenario bare_row = JStr (lit "Not specified in document")) /\
   (field bare_element k_flow_type = None ->
      ftype bare_row = JStr (lit "Not specified in document"))).
Proof.
  split; [reflexivity | apply missing_field_defaults; reflexivity].
Defined.

(** C10. For a surviving element, a text field or flow classification
    that is present but falsy (the empty string, null, false, zero, an
    empty list or object) is replaced by "Not specified in document" just
    as an absent one is; so no text field of an output row is the empty
    string (it is never falsy at all). *)
Theorem falsy_field_defaults (s : json) (r : row) :
  loop_body s = Ok (Some r) ->
  (forall v, field s k_requirement_location = Some v -> truthy v = false ->
     loc r = JStr (lit "Not specified in document")) /\
  (forall v, field s k_integration_flow_summary = Some v -> truthy v = false ->
     summary r = JStr (lit "Not specified in document")) /\
  (forall v, field s k_test_scenario_integration = Some v -> truthy v = false ->
     scenario r = JStr (lit "Not specified in document")) /\
  (forall v, field s k_flow_type = Some v -> truthy v = false ->
     ftype r = JStr (lit "Not specified in document")) /\
  (loc r <> JStr [] /\ summary r <> JStr [] /\
   scenario r <> JStr [] /\ ftype r <> JStr []) /\
  (truthy (loc r) = true /\ truthy (summary r) = true /\
   truthy (scenario r) = true /\ truthy (ftype r) = true).
Proof.
  intros H. apply loop_body_Some_inv in H as (v & names & _ & _ & _ & _ & -> & _).
  cbn [row_of loc summary scenario ftype].
  repeat split; try apply text_of_not_empty; try apply text_of_truthy;
    intros v'; apply text_of_falsy.
Qed.

Lemma falsy_field_defaults_witness :
  loop_body bare_element = Ok (Some bare_row) /\
  field bare_element k_flow_type = Some (JStr []) /\
  truthy (JStr []) = false /\
  ftype bare_row = JStr (lit "Not specified in document").
Proof.
  split; [reflexivity|]. split; [reflexivity|]. split; [reflexivity|].
  apply (proj1 (proj2 (proj2 (proj2
           (falsy_field_defaults bare_element bare_row eq_refl)))) (JStr []));
    reflexivity.
Defined.

(** ** The module names of a row *)

(** C7, as stated, fails: the module list of [blank_middle_element] is
    "A", " ", "B"; trimming each entry and joining them gives "A, , B",
    but the row has "A, B", because a blank entry is left out. *)
Lemma blank_entry_left_out_of_join :
  field blank_middle_element k_related
    = Some (JList [JStr (lit "A"); JStr (lit " "); JStr (lit "B")]) /\
  loop_body blank_middle_element = Ok (Some blank_middle_row) /\
  related blank_middle_row = lit "A, B" /\
  join (lit ", ") (map strip [lit "A"; lit " "; lit "B"]) = lit "A, , B" /\
  related blank_middle_row
    <> join (lit ", ") (map strip [lit "A"; lit " "; lit "B"]).
Proof. repeat split. vm_compute. discriminate. Qed.

(** C7, amended.  For a surviving element, the modules field of the
    output row is the element's module entries that are not empty after
    trimming, each trimmed of surrounding whitespace, joined with ", ";
    blank entries are left out.  When no entry is blank these are all
    the entries. *)
Theorem related_joins_trimmed_names (s : json) (r : row) :
  loop_body s = Ok (Some r) ->
  exists v names,
    field s k_related = Some v /\
    py_iter v = Ok (map JStr names) /\
    related r = join (lit ", ") (map strip (List.filter nonblank names)) /\
    (forallb nonblank names = true ->
       related r = join (lit ", ") (map strip names)).
Proof.
  intros H. apply loop_body_Some_inv in H as (v & names & Hf & _ & _ & Hit & -> & _).
  exists v, names. cbn [row_of related].
  repeat split; try assumption.
  intros Hall. rewrite filter_nonblank_all by assumption. reflexivity.
Qed.

Lemma related_joins_trimmed_names_witness :
  loop_body bare_element = Ok (Some bare_row) /\
  related bare_row = lit "Cart, Payment" /\
  exists v names,
    field bare_element k_related = Some v /\
    py_iter v = Ok (map JStr names) /\
    related bare_row = join (lit ", ") (map strip (List.filter nonblank names)) /\
    (forallb nonblank names = true ->
       related bare_row = join (lit ", ") (map strip names)).
Proof.
  split; [reflexivity|]. split; [reflexivity|].
  apply related_joins_trimmed_names. reflexivity.
Defined.

(** ** The module filter *)

(** C1. The element [blank_module_element] has a module list with two
    entries of which only one is not blank.  The loop does not discard it:
    it contributes a row whose modules field names the single module
    "Billing", and that row is in the normalised output. *)
Theorem blank_module_entry_survives :
  field blank_module_element k_related
    = Some (JList [JStr (lit "Billing"); JStr (lit "  ")]) /\
  List.filter nonblank [lit "Billing"; lit "  "] = [lit "Billing"] /\
  loop_body blank_module_element = Ok (Some blank_module_row) /\
  related blank_module_row = lit "Billing" /\
  normalize [blank_module_element] [] = Ok [blank_module_row].
Proof. repeat split. Qed.

(** C9, as stated, fails: the modules of [empty_string_modules_element]
    are present and are not a list, yet the element is discarded, because
    the empty string is replaced by the empty list before the filter. *)
Lemma empty_string_modules_discarded :
  field empty_string_modules_element k_related = Some (JStr []) /\
  isinstance_list (JStr []) = false /\
  loop_body empty_string_modules_element = Ok None /\
  normalize [empty_string_modules_element] [] = Ok [].
Proof. repeat split. Qed.

(** C9, amended.  For an element whose participating-modules field is
    present, truthy and not a list, the fewer-than-two filter is skipped
    and the element is not discarded.  When the value can be iterated (a
    non-empty string yields its characters, a non-empty object its keys)
    the element gives a row whose module names are those items; otherwise
    (a number or [true]) the loop raises the iteration's [TypeError]. *)
Theorem truthy_non_list_modules_pass_filter (s v : json) :
  field s k_related = Some v ->
  isinstance_list v = false ->
  truthy v = true ->
  loop_body s <> Ok None /\
  match py_iter v with
  | Ok items =>
      exists names,
        items = map JStr names /\
        loop_body s = Ok (Some (row_of s (map strip (List.filter nonblank names))))
  | Raise e => loop_body s = Raise e
  end.
Proof.
  intros Hf Hl Hv.
  destruct s as [| | | | |l0|d]; try discriminate.
  assert (modules_of (JObj d) = v) as Hm.
  { unfold modules_of, py_or. rewrite Hf. cbn [default from_option id].
    rewrite Hv. reflexivity. }
  split.
  - intros Hs. apply loop_body_skips_iff in Hs as (d' & l & _ & Hm' & _).
    rewrite Hm in Hm'. rewrite Hm' in Hl. discriminate Hl.
  - rewrite loop_body_object, Hm.
    destruct v; cbn in Hl; try discriminate Hl;
      cbn [py_iter rbind]; try reflexivity.
    + exists (map (fun c => [c]) s). rewrite map_map. split; [reflexivity|].
      change (map (fun c => JStr [c]) s) with (map (fun c => JStr ((fun c => [c]) c)) s).
      rewrite <- (map_map (fun c => [c]) JStr), stripped_names_strs. reflexivity.
    + exists (dict_keys d0). split; [reflexivity|].
      rewrite stripped_names_strs. reflexivity.
Qed.

Lemma truthy_non_list_modules_pass_filter_witness :
  field string_modules_element k_related = Some (JStr (lit "AB")) /\
  isinstance_list (JStr (lit "AB")) = false /\
  truthy (JStr (lit "AB")) = true /\
  loop_body string_modules_element = Ok (Some string_modules_row) /\
  loop_body string_modules_element <> Ok None.
Proof.
  split; [reflexivity|]. split; [reflexivity|]. split; [reflexivity|].
  split; [reflexivity|].
  apply (truthy_non_list_modules_pass_filter string_modules_element (JStr (lit "AB")));
    reflexivity.
Defined.

(** ** Order of the output *)

Lemma survivor_Some (s : json) (r : row) :
  survivor s = Some r <-> loop_body s = Ok (Some r).
Proof.
  unfold survivor. split.
  - destruct (loop_body s) as [[r'|]|]; intros [= <-]. reflexivity.
  - intros ->. reflexivity.
Qed.

(** The loop appends to the accumulator the rows of the elements that
    give one, in the order of the elements. *)
Lemma normalize_acc (scenarios : list json) (acc out : list row) :
  normalize scenarios acc = Ok out -> out = acc ++ omap survivor scenarios.
Proof.
  revert acc. induction scenarios as [|s rest IH]; intros acc H.
  - cbn in H. injection H as <-. cbn. rewrite app_nil_r. reflexivity.
  - cbn [normalize] in H. cbn [omap list_omap]. unfold survivor at 1.
    destruct (loop_body s) as [[r|]|]; [| |discriminate].
    + apply IH in H. rewrite H, <- app_assoc. reflexivity.
    + apply IH in H. exact H.
Qed.

(** The loop returns as soon as no element raises. *)
Lemma normalize_returns (scenarios : list json) (acc : list row) :
  Forall (fun s => exists o, loop_body s = Ok o) scenarios ->
  normalize scenarios acc = Ok (acc ++ omap survivor scenarios).
Proof.
  intros H. revert acc. induction H as [|s rest [o Ho] _ IH]; intros acc.
  - cbn. rewrite app_nil_r. reflexivity.
  - cbn [normalize omap list_omap]. unfold survivor at 1. rewrite Ho.
    destruct o as [r|]; rewrite IH; [rewrite <- app_assoc|]; reflexivity.
Qed.


Section Omap.
Context {A B : Type} (f : A -> option B).

(** An element that [f] keeps is found in [omap f l] after the kept
    elements that precede it. *)
Lemma omap_lookup_rank (l : list A) (k : nat) (a : A) (b : B) :
  l !! k = Some a -> f a = Some b ->
  omap f l !! length (omap f (take k l)) = Some b.
Proof.
  intros Hk Hf.
  replace (omap f l) with (omap f (take k l) ++ omap f (a :: drop (S k) l))
    by (rewrite <- omap_app, take_drop_middle by exact Hk; reflexivity).
  rewrite lookup_app_r by lia.
  rewrite Nat.sub_diag. cbn [omap list_omap]. rewrite Hf. reflexivity.
Qed.

Lemma omap_rank_lt (l : list A) (k k' : nat) (a : A) (b : B) :
  (k < k')%nat -> l !! k = Some a -> f a = Some b ->
  (length (omap f (take k l)) < length (omap f (take k' l)))%nat.
Proof.
  intros Hlt Hk Hf.
  replace k' with (S k + (k' - S k))%nat by lia.
  rewrite <- take_take_drop, (take_S_r l k a Hk), !omap_app, !length_app.
  cbn [omap list_omap]. rewrite Hf. cbn [length]. lia.
Qed.

(** Every element of [omap f l] is the image of an element of [l] and
    stands at that element's rank. *)
Lemma omap_lookup_inv (l : list A) (i : nat) (b : B) :
  omap f l !! i = Some b ->
  exists k a, l !! k = Some a /\ f a = Some b /\ length (omap f (take k l)) = i.
Proof.
  revert i. induction l as [|x l IH]; intros i H; [discriminate|].
  cbn [omap list_omap] in H. destruct (f x) as [y|] eqn:Hx.
  - destruct i as [|i].
    + injection H as <-. exists 0%nat, x. auto.
    + destruct (IH i H) as (k & a & Hk & Hf & Hr).
      exists (S k), a. cbn [take omap list_omap]. rewrite Hx. cbn [length].
      auto.
  - destruct (IH i H) as (k & a & Hk & Hf & Hr).
    exists (S k), a. cbn [take omap list_omap]. rewrite Hx. auto.
Qed.

End Omap.

(** C6. The normalised output keeps the order of the scenarios array: it
    consists of the rows of the surviving elements and of nothing else,
    each surviving element's row stands at the element's rank, and the
    rank grows with the position in the scenarios array, so two surviving
    elements are in the same relative order in the output. *)
Theorem normalize_preserves_order (scenarios : list json) (out : list row) :
  normalize scenarios [] = Ok out ->
  out = omap survivor scenarios /\
  (forall k s r, scenarios !! k = Some s -> loop_body s = Ok (Some r) ->
     out !! rank scenarios k = Some r) /\
  (forall k k' s s' r r', (k < k')%nat ->
     scenarios !! k = Some s -> scenarios !! k' = Some s' ->
     loop_body s = Ok (Some r) -> loop_body s' = Ok (Some r') ->
     (rank scenarios k < rank scenarios k')%nat) /\
  (forall i r, out !! i = Some r ->
     exists k s, scenarios !! k = Some s /\ loop_body s = Ok (Some r) /\
                 rank scenarios k = i).
Proof.
  intros H. apply normalize_acc in H. cbn [app] in H. subst out.
  split; [reflexivity|]. split; [|split].
  - intros k s r Hk Hs. apply (omap_lookup_rank _ _ _ s); [exact Hk|].
    apply survivor_Some. exact Hs.
  - intros k k' s s' r r' Hlt Hk _ Hs _.
    apply (omap_rank_lt _ _ _ _ s r); [exact Hlt|exact Hk|].
    apply survivor_Some. exact Hs.
  - intros i r Hi. apply omap_lookup_inv in Hi as (k & s & Hk & Hs & Hr).
    exists k, s. apply survivor_Some in Hs. auto.
Qed.

Lemma normalize_preserves_order_witness :
  normalize [bare_element; empty_string_modules_element; string_modules_element] []
    = Ok [bare_row; string_modules_row] /\
  [bare_row; string_modules_row]
    = omap survivor [bare_element; empty_string_modules_element; string_modules_element].
Proof.
  split; [reflexivity|].
  apply (normalize_preserves_order
           [bare_element; empty_string_modules_element; string_modules_element]
           [bare_row; string_modules_row]).
  reflexivity.
Defined.

(** ** The document loader never raises *)

Lemma replaces_returns (strict replaced : result pystr) :
  replaces strict replaced -> exists text, replaced = Ok text.
Proof. intros (text & H & _). exists text. exact H. Qed.

Lemma replaces_emit (ch : N) (strict replaced : result pystr) :
  replaces strict replaced -> replaces (emit ch strict) (emit ch replaced).
Proof.
  intros (text & -> & [-> | [-> Hin]]); exists (ch :: text); cbn.
  - auto.
  - split; [reflexivity|]. right. auto.
Qed.

Lemma replaces_on_error (strict replaced : result pystr) :
  (exists text, replaced = Ok text) ->
  replaces (on_error Strict strict) (on_error Replace replaced).
Proof.
  intros (text & ->). exists (0xFFFD :: text). cbn.
  split; [reflexivity|]. right. auto.
Qed.

Ltac decode_cases :=
  repeat match goal with
         | |- context [if ?c then _ else _] => destruct c
         | |- context [match ?l with [] => _ | _ :: _ => _ end] =>
             is_var l; destruct l
         end.

Lemma utf8_decode_replaces_upto (n : nat) (s : list byte) :
  (length s <= n)%nat ->
  replaces (utf8_decode Strict s) (utf8_decode Replace s).
Proof.
  revert s. induction n as [|n IH]; intros s Hn.
  - destruct s; [|cbn in Hn; lia]. exists []. cbn. auto.
  - destruct s as [|c1 s1]; [exists []; cbn; auto|].
    cbn [utf8_decode]. cbv zeta. decode_cases;
      first [ apply replaces_emit; apply IH; cbn [length] in *; lia
            | apply replaces_on_error; first
                [ eexists; reflexivity
                | eapply replaces_returns; apply IH;
                  cbn [length] in *; lia ] ].
Qed.

(** On every input the replacing decoder returns a text.  It is the strict
    decoder's text when the input is valid UTF-8; otherwise the strict
    decoder raises and the text has U+FFFD in it. *)
Lemma utf8_decode_replaces (s : list byte) :
  replaces (utf8_decode Strict s) (utf8_decode Replace s).
Proof. apply (utf8_decode_replaces_upto (length s)). lia. Qed.

Lemma read_text_returns (f : file) :
  exists text,
    utf8_decode Replace (fst (file_read f)) = Ok text /\
    read_text f = (Ok text, snd (file_read f)).
Proof.
  destruct (replaces_returns _ _ (utf8_decode_replaces (fst (file_read f))))
    as [text Ht].
  exists text. split; [exact Ht|].
  unfold read_text. destruct (file_read f) as [bs f1]. cbn [fst snd] in *.
  rewrite Ht. reflexivity.
Qed.

(** C5. Whatever bytes the uploaded file holds, [read_text] does not
    raise: it returns a string, the replacing decoding of the bytes it
    read.  Bytes that are not valid UTF-8 (on which strict decoding
    raises) are replaced by U+FFFD instead of causing a failure. *)
Theorem read_text_never_raises (f : file) :
  exists text,
    read_text f = (Ok text, snd (file_read f)) /\
    fst (file_read f) = drop (position f) (content f) /\
    utf8_decode Replace (fst (file_read f)) = Ok text /\
    (utf8_decode Strict (fst (file_read f)) = Ok text \/
     (utf8_decode Strict (fst (file_read f)) = Raise UnicodeDecodeError /\
      In 0xFFFD text)).
Proof.
  destruct (utf8_decode_replaces (fst (file_read f))) as (text & Ht & Hs).
  destruct (read_text_returns f) as (text' & Ht' & Hr).
  rewrite Ht in Ht'. injection Ht' as <-.
  exists text. auto.
Qed.

(** ** The missing credential *)

(** Rewrites the environment lookup of the goal with what is known of it. *)
Ltac use_env H :=
  match type of H with
  | ?l = ?v =>
      match goal with
      | |- context [environ ?w !! ?k] =>
          replace (environ w !! k) with v by (symmetry; exact H)
      end
  end.

(** C3. When the button is pressed and OPENAI_API_KEY is absent from the
    environment, the page shows the configuration error and nothing else
    happens: the action returns, no request is sent to the model service
    (the extraction function is not run), and the environment is as it
    was. *)
Theorem missing_credential_sends_nothing
    (json_loads : pystr -> option json)
    (chat_completions_create : pystr -> request -> result response)
    (OpenAI_without_key : option pystr -> result pystr)
    (pd_DataFrame : list row -> list pystr -> result dataframe)
    (st_dataframe_renders : dataframe -> result unit)
    (to_csv : dataframe -> result pystr)
    (f : file) (w : world) :
  environ w !! OPENAI_API_KEY = None ->
  main_action json_loads chat_completions_create OpenAI_without_key
      pd_DataFrame st_dataframe_renders to_csv (Some f) true w
    = (Ok tt,
       {| environ := environ w;
          sent := sent w;
          page := page w ++ [st_error (lit "OPENAI_API_KEY is not set. Please set it in your environment and retry.")] |}).
Proof.
  intros Hkey. unfold main_action, bind, lift.
  destruct (read_text_returns f) as (text & _ & ->). cbn [fst].
  unfold getenv. use_env Hkey. reflexivity.
Qed.

Lemma missing_credential_sends_nothing_witness :
  environ bare_world !! OPENAI_API_KEY = None /\
  main_action sample_loads calling_service refusing_client
      plain_DataFrame rendering blank_csv (Some sample_file) true bare_world
    = (Ok tt,
       {| environ := ∅;
          sent := [];
          page := [st_error (lit "OPENAI_API_KEY is not set. Please set it in your environment and retry.")] |}).
Proof.
  split; [reflexivity|].
  apply (missing_credential_sends_nothing sample_loads calling_service refusing_client
           plain_DataFrame rendering blank_csv sample_file bare_world).
  reflexivity.
Defined.

(** ** The missing function call *)


Lemma get_client_keyed
    (OpenAI_without_key : option pystr -> result pystr) (w : world) (key : pystr) :
  environ w !! OPENAI_API_KEY = Some key -> key <> [] ->
  get_client OpenAI_without_key w = (Ok key, w).
Proof.
  intros Hkey Hne. unfold get_client, bind, getenv. use_env Hkey.
  destruct key; [congruence|reflexivity].
Qed.

(** With a non-empty key in the environment the extraction sends one
    request and goes on with the service's answer. *)
Lemma extract_answered
    (json_loads : pystr -> option json)
    (chat_completions_create : pystr -> request -> result response)
    (OpenAI_without_key : option pystr -> result pystr)
    (doc_text key : pystr) (w : world) (resp : response) :
  environ w !! OPENAI_API_KEY = Some key -> key <> [] ->
  chat_completions_create key (build_request doc_text) = Ok resp ->
  extract_scenarios_with_function_call json_loads chat_completions_create
      OpenAI_without_key doc_text w
    = (scenarios_of_response json_loads resp,
       {| environ := environ w;
          sent := sent w ++ [build_request doc_text];
          page := page w |}).
Proof.
  intros Hkey Hne Hresp. unfold extract_scenarios_with_function_call, bind.
  rewrite (get_client_keyed _ w key Hkey Hne). unfold create, lift.
  rewrite Hresp. reflexivity.
Qed.




(** A response without any choice makes [resp.choices[0]] raise, which is
    another error than the missing function call. *)
Lemma scenarios_of_response_no_choice (json_loads : pystr -> option json) :
  scenarios_of_response json_loads {| choices := [] |} = Raise IndexError.
Proof. reflexivity. Qed.

(** With a tool call whose arguments hold one element, the extraction
    sends one request and returns that element's row. *)
Example extract_calling_service :
  extract_scenarios_with_function_call sample_loads calling_service refusing_client
    (lit "Order flow") keyed_world
  = (Ok [bare_row],
     {| environ := environ keyed_world;
        sent := [build_request (lit "Order flow")];
        page := [] |}).
Proof.
  rewrite (extract_answered sample_loads calling_service refusing_client
             (lit "Order flow") (lit "sk-test") keyed_world calling_response);
    [reflexivity | vm_compute; reflexivity | discriminate | reflexivity].
Qed.

(** ** The embedding on concrete values *)

Example strip_spaces : strip ([0x20; 0x09] ++ lit "Cart" ++ [0x0A; 0x20]) = lit "Cart".
Proof. reflexivity. Qed.

Example strip_keeps_inner : strip (lit " a b ") = lit "a b".
Proof. reflexivity. Qed.

Example strip_no_break_space : strip [0xA0; 0x41; 0x3000] = [0x41].
Proof. reflexivity. Qed.

Example join_three : join (lit ", ") [lit "a"; lit "b"; lit "c"] = lit "a, b, c".
Proof. reflexivity. Qed.

Example iter_number_raises : py_iter (JInt 5) = Raise TypeError.
Proof. reflexivity. Qed.

Example loop_body_number_modules :
  loop_body (JObj [(k_related, JInt 5)]) = Raise TypeError.
Proof. reflexivity. Qed.

Example loop_body_null_entry :
  loop_body (JObj [(k_related, JList [JStr (lit "A"); JNull])]) = Raise AttributeError.
Proof. reflexivity. Qed.

Example loop_body_one_module :
  loop_body (JObj [(k_related, JList [JStr (lit "A")])]) = Ok None.
Proof. reflexivity. Qed.

Example loop_body_no_modules :
  loop_body (JObj [(k_flow_type, JStr (lit "Main Flow"))]) = Ok None.
Proof. reflexivity. Qed.

(** "(euro sign) A" followed by an invalid byte and a cut-off sequence. *)
Example decode_replace_mixed :
  utf8_decode Replace [xe2; x82; xac; x41; xff; xe2; x82]
  = Ok [0x20AC; 0x41; 0xFFFD; 0xFFFD].
Proof. reflexivity. Qed.

Example decode_strict_mixed :
  utf8_decode Strict [xe2; x82; xac; x41; xff; xe2; x82] = Raise UnicodeDecodeError.
Proof. reflexivity. Qed.

(** An encoded surrogate is three invalid stretches, an overlong NUL two. *)
Example decode_replace_surrogate :
  utf8_decode Replace [xf0; x9f; x98; x80; xed; xa0; x80; xc0; x80]
  = Ok [0x1F600; 0xFFFD; 0xFFFD; 0xFFFD; 0xFFFD; 0xFFFD].
Proof. reflexivity. Qed.

Example encode_then_decode :
  (let? bs := utf8_encode [0x1F600; 0x20AC; 0xE9; 0x41] in utf8_decode Strict bs)
  = Ok [0x1F600; 0x20AC; 0xE9; 0x41].
Proof. reflexivity. Qed.

Example read_text_sample :
  fst (read_text sample_file) = Ok (lit "Order" ++ [0xFFFD]).
Proof. reflexivity. Qed.

(** * Further properties of the program *)

(** ** The main action, case by case *)

Lemma read_text_document (f : file) : fst (read_text f) = Ok (document f).
Proof.
  unfold document. destruct (read_text_returns f) as (text & _ & ->).
  reflexivity.
Qed.

Lemma after_nothing (w : world) : after w None [] = w.
Proof.
  unfold after. rewrite !app_nil_r. destruct w; reflexivity.
Qed.

Lemma after_then (w : world) (req : option request) (ws ws' : list widget) :
  after (after w req ws) None ws' = after w req (ws ++ ws').
Proof.
  unfold after. cbn [environ sent page]. rewrite app_nil_r, app_assoc. reflexivity.
Qed.

Lemma after_first (w : world) (req : option request) (ws ws' : list widget) :
  after (after w None ws) req ws' = after w req (ws ++ ws').
Proof.
  unfold after. cbn [environ sent page]. rewrite app_nil_r, app_assoc. reflexivity.
Qed.

Lemma show_after (x : widget) (w : world) : show x w = (Ok tt, after w None [x]).
Proof. unfold show, after. rewrite app_nil_r. reflexivity. Qed.

(** The branch for at least one row, step by step: the first step that
    raises ends it, with what was shown before. *)
Lemma publish_steps
    (pd_DataFrame : list row -> list pystr -> result dataframe)
    (st_dataframe_renders : dataframe -> result unit)
    (to_csv : dataframe -> result pystr)
    (rows : list row) (w : world) :
  publish pd_DataFrame st_dataframe_renders to_csv rows w =
    match pd_DataFrame rows columns with
    | Raise e => (Raise e, after w None [])
    | Ok df =>
        match st_dataframe_renders df with
        | Raise e => (Raise e, after w None [extraction_complete])
        | Ok _ =>
            match (let? text := to_csv df in utf8_encode text) with
            | Raise e => (Raise e, after w None [extraction_complete; st_dataframe df])
            | Ok data =>
                (Ok tt, after w None [extraction_complete; st_dataframe df;
                                      download_csv data])
            end
        end
    end.
Proof.
  unfold publish, bind at 1, lift at 1.
  destruct (pd_DataFrame rows columns) as [df|e]; [|rewrite after_nothing; reflexivity].
  unfold bind at 1. rewrite show_after. unfold bind at 1, lift at 1.
  destruct (st_dataframe_renders df) as [[]|e]; [|reflexivity].
  unfold bind at 1. rewrite show_after, after_then. cbn [app].
  unfold bind at 1, lift at 1.
  destruct (to_csv df) as [text|e]; cbn [rbind]; [|reflexivity].
  unfold bind, lift.
  destruct (utf8_encode text) as [data|e]; [|reflexivity].
  rewrite show_after, after_then. reflexivity.
Qed.

(** The body of the [try] when the environment has a non-empty key: one
    request, then the failure, the warning or the rows branch. *)
Lemma attempt_steps
    (json_loads : pystr -> option json)
    (chat_completions_create : pystr -> request -> result response)
    (OpenAI_without_key : option pystr -> result pystr)
    (pd_DataFrame : list row -> list pystr -> result dataframe)
    (st_dataframe_renders : dataframe -> result unit)
    (to_csv : dataframe -> result pystr)
    (text key : pystr) (w : world) :
  environ w !! OPENAI_API_KEY = Some key -> key <> [] ->
  attempt json_loads chat_completions_create OpenAI_without_key
      pd_DataFrame st_dataframe_renders to_csv text w =
    match (let? resp := chat_completions_create key (build_request text) in
           scenarios_of_response json_loads resp) with
    | Raise e => (Raise e, after w (Some (build_request text)) [])
    | Ok [] => (Ok tt, after w (Some (build_request text)) [no_flows_warning])
    | Ok (r :: rows) =>
        publish pd_DataFrame st_dataframe_renders to_csv (r :: rows)
          (after w (Some (build_request text)) [])
    end.
Proof.
  intros Hkey Hne. unfold attempt, bind at 1.
  unfold extract_scenarios_with_function_call, bind at 1.
  rewrite (get_client_keyed _ w key Hkey Hne). unfold bind at 1, create, lift.
  assert ({| environ := environ w; sent := sent w ++ [build_request text];
             page := page w |} = after w (Some (build_request text)) []) as ->
    by (unfold after; rewrite app_nil_r; reflexivity).
  destruct (chat_completions_create key (build_request text)) as [resp|e];
    cbn [rbind]; [|reflexivity].
  destruct (scenarios_of_response json_loads resp) as [[|r rows]|e];
    [|reflexivity|reflexivity].
  rewrite show_after, after_then. reflexivity.
Qed.

(** What pressing the button does when the environment has a non-empty
    key: the spinner, the body of the [try], and the exception it raised,
    if any, on the page. *)
Lemma main_action_pressed
    (json_loads : pystr -> option json)
    (chat_completions_create : pystr -> request -> result response)
    (OpenAI_without_key : option pystr -> result pystr)
    (pd_DataFrame : list row -> list pystr -> result dataframe)
    (st_dataframe_renders : dataframe -> result unit)
    (to_csv : dataframe -> result pystr)
    (f : file) (w : world) (key : pystr) :
  environ w !! OPENAI_API_KEY = Some key -> key <> [] ->
  main_action json_loads chat_completions_create OpenAI_without_key
      pd_DataFrame st_dataframe_renders to_csv (Some f) true w =
    match attempt json_loads chat_completions_create OpenAI_without_key
            pd_DataFrame st_dataframe_renders to_csv (document f)
            (after w None [spinner]) with
    | (Ok _, w1) => (Ok tt, w1)
    | (Raise e, w1) => (Ok tt, after w1 None [st_error_went_wrong e])
    end.
Proof.
  intros Hkey Hne. unfold main_action, bind at 1, lift at 1.
  rewrite read_text_document. unfold bind at 1, getenv. use_env Hkey.
  destruct key as [|k0 key']; [congruence|]. cbn [truthy_env negb].
  unfold bind at 1. rewrite show_after. unfold try_except. fold spinner.
  destruct (attempt _ _ _ _ _ _ (document f) (after w None [spinner])) as [[[]|e] w1];
    [reflexivity|apply show_after].
Qed.

Lemma main_action_blocked
    (json_loads : pystr -> option json)
    (chat_completions_create : pystr -> request -> result response)
    (OpenAI_without_key : option pystr -> result pystr)
    (pd_DataFrame : list row -> list pystr -> result dataframe)
    (st_dataframe_renders : dataframe -> result unit)
    (to_csv : dataframe -> result pystr)
    (f : file) (w : world) :
  truthy_env (environ w !! OPENAI_API_KEY) = false ->
  main_action json_loads chat_completions_create OpenAI_without_key
      pd_DataFrame st_dataframe_renders to_csv (Some f) true w
    = (Ok tt, after w None [st_error missing_key_message]).
Proof.
  intros Hkey. unfold main_action, bind at 1, lift at 1.
  rewrite read_text_document. unfold bind at 1, getenv.
  match goal with
  | |- context [truthy_env ?x] =>
      replace (truthy_env x) with false by (symmetry; exact Hkey)
  end.
  cbn [negb]. apply show_after.
Qed.

(** The body of the [try] sends exactly the request built from the text
    and otherwise only appends to the page. *)
Lemma attempt_frame
    (json_loads : pystr -> option json)
    (chat_completions_create : pystr -> request -> result response)
    (OpenAI_without_key : option pystr -> result pystr)
    (pd_DataFrame : list row -> list pystr -> result dataframe)
    (st_dataframe_renders : dataframe -> result unit)
    (to_csv : dataframe -> result pystr)
    (text key : pystr) (w : world) :
  environ w !! OPENAI_API_KEY = Some key -> key <> [] ->
  exists r ws,
    attempt json_loads chat_completions_create OpenAI_without_key
      pd_DataFrame st_dataframe_renders to_csv text w
    = (r, after w (Some (build_request text)) ws).
Proof.
  intros Hkey Hne. rewrite (attempt_steps _ _ _ _ _ _ _ key w Hkey Hne).
  destruct (let? resp := chat_completions_create key (build_request text) in
            scenarios_of_response json_loads resp) as [[|r rows]|e]; [eauto| |eauto].
  rewrite publish_steps.
  destruct (pd_DataFrame (r :: rows) columns) as [df|e];
    [|rewrite after_then; eauto].
  destruct (st_dataframe_renders df) as [[]|e]; [|rewrite after_then; eauto].
  destruct (let? text0 := to_csv df in utf8_encode text0);
    rewrite after_then; eauto.
Qed.

(** Every run of the main action returns; what it sends and shows is
    appended to what was there, and a request, if any, is the one built
    from the uploaded document after a press with a non-empty key. *)
Lemma main_action_outcome
    (json_loads : pystr -> option json)
    (chat_completions_create : pystr -> request -> result response)
    (OpenAI_without_key : option pystr -> result pystr)
    (pd_DataFrame : list row -> list pystr -> result dataframe)
    (st_dataframe_renders : dataframe -> result unit)
    (to_csv : dataframe -> result pystr)
    (uploaded : option file) (button : bool) (w : world) :
  exists req ws,
    main_action json_loads chat_completions_create OpenAI_without_key
      pd_DataFrame st_dataframe_renders to_csv uploaded button w
      = (Ok tt, after w req ws) /\
    (req = None \/
     exists f key, uploaded = Some f /\ button = true /\
                   environ w !! OPENAI_API_KEY = Some key /\ key <> [] /\
                   req = Some (build_request (document f))).
Proof.
  destruct uploaded as [f|].
  2:{ exists None, [st_info (lit "Please upload a .txt or .md file to begin.")].
      split; [|left; reflexivity]. apply show_after. }
  destruct button.
  2:{ exists None, []. split; [|left; reflexivity].
      unfold main_action, bind, lift. rewrite read_text_document.
      unfold ret. rewrite after_nothing. reflexivity. }
  destruct (environ w !! OPENAI_API_KEY) as [[|k0 key']|] eqn:Hkey.
  - exists None, [st_error missing_key_message]. split; [|left; reflexivity].
    apply main_action_blocked.
    replace (environ w !! OPENAI_API_KEY) with (Some (@nil N)) by (symmetry; exact Hkey).
    reflexivity.
  - assert (k0 :: key' <> []) as Hne by discriminate.
    rewrite (main_action_pressed _ _ _ _ _ _ f w (k0 :: key') Hkey Hne).
    assert (environ (after w None [spinner]) !! OPENAI_API_KEY = Some (k0 :: key'))
      as Hkey' by exact Hkey.
    destruct (attempt_frame json_loads chat_completions_create OpenAI_without_key
                pd_DataFrame st_dataframe_renders to_csv (document f) (k0 :: key')
                (after w None [spinner]) Hkey' Hne) as (r & ws & ->).
    exists (Some (build_request (document f))).
    destruct r as [[]|e].
    + exists ([spinner] ++ ws). rewrite after_first.
      split; [reflexivity|]. right. exists f, (k0 :: key'). auto.
    + exists (([spinner] ++ ws) ++ [st_error_went_wrong e]).
      rewrite after_first, after_then.
      split; [reflexivity|]. right. exists f, (k0 :: key'). auto.
  - exists None, [st_error missing_key_message]. split; [|left; reflexivity].
    apply main_action_blocked.
    replace (environ w !! OPENAI_API_KEY) with (@None pystr) by (symmetry; exact Hkey).
    reflexivity.
Qed.

(** X1. The main action never raises: whatever the upload, the button,
    the environment, the parser, the service, the table constructor, the
    table display and the CSV writer do, the script runs to its end.  After
    a press with a file and a non-empty key, an exception raised by the
    body of the [try] (the extraction, the table, the CSV text or its
    encoding) is caught and shown: the page is the page that body left,
    followed by "Something went wrong" with that exception; when the body
    returns, nothing is added to what it left. *)
Theorem main_action_always_returns
    (json_loads : pystr -> option json)
    (chat_completions_create : pystr -> request -> result response)
    (OpenAI_without_key : option pystr -> result pystr)
    (pd_DataFrame : list row -> list pystr -> result dataframe)
    (st_dataframe_renders : dataframe -> result unit)
    (to_csv : dataframe -> result pystr)
    (uploaded : option file) (button : bool) (w : world) :
  let out := main_action json_loads chat_completions_create OpenAI_without_key
               pd_DataFrame st_dataframe_renders to_csv uploaded button w in
  fst out = Ok tt /\
  (forall (f : file) (key : pystr) (r : result unit) (w1 : world),
     uploaded = Some f -> button = true ->
     environ w !! OPENAI_API_KEY = Some key -> key <> [] ->
     attempt json_loads chat_completions_create OpenAI_without_key
       pd_DataFrame st_dataframe_renders to_csv (document f)
       {| environ := environ w; sent := sent w; page := page w ++ [spinner] |}
       = (r, w1) ->
     snd out =
       match r with
       | Ok _ => w1
       | Raise e =>
           {| environ := environ w1; sent := sent w1;
              page := page w1 ++ [st_error_went_wrong e] |}
       end).
Proof.
  cbv zeta. split.
  - destruct (main_action_outcome json_loads chat_completions_create
                OpenAI_without_key pd_DataFrame st_dataframe_renders to_csv
                uploaded button w) as (req & ws & -> & _).
    reflexivity.
  - intros f key r w1 -> -> Hkey Hne Hbody.
    rewrite (main_action_pressed _ _ _ _ _ _ f w key Hkey Hne).
    assert (after w None [spinner]
            = {| environ := environ w; sent := sent w; page := page w ++ [spinner] |})
      as -> by (unfold after; rewrite app_nil_r; reflexivity).
    rewrite Hbody. destruct r as [[]|e]; cbn [snd]; [reflexivity|].
    unfold after. rewrite app_nil_r. reflexivity.
Qed.

Lemma main_action_always_returns_witness :
  environ keyed_world !! OPENAI_API_KEY = Some (lit "sk-test") /\
  attempt sample_loads failing_service refusing_client plain_DataFrame rendering
    blank_csv (document sample_file)
    {| environ := environ keyed_world; sent := []; page := [spinner] |}
    = (Raise (OpenAIError (lit "Connection error.")),
       {| environ := environ keyed_world;
          sent := [build_request (lit "Order" ++ [0xFFFD])];
          page := [spinner] |}) /\
  snd (main_action sample_loads failing_service refusing_client plain_DataFrame
         rendering blank_csv (Some sample_file) true keyed_world)
    = {| environ := environ keyed_world;
         sent := [build_request (lit "Order" ++ [0xFFFD])];
         page := [spinner; st_error_went_wrong (OpenAIError (lit "Connection error."))] |}.
Proof.
  split; [vm_compute; reflexivity|]. split; [vm_compute; reflexivity|].
  apply (proj2 (main_action_always_returns sample_loads failing_service refusing_client
                  plain_DataFrame rendering blank_csv (Some sample_file) true keyed_world)
           sample_file (lit "sk-test")
           (Raise (OpenAIError (lit "Connection error.")))
           {| environ := environ keyed_world;
              sent := [build_request (lit "Order" ++ [0xFFFD])];
              page := [spinner] |}).
  - reflexivity.
  - reflexivity.
  - vm_compute. reflexivity.
  - discriminate.
  - vm_compute. reflexivity.
Defined.

(** X2. One run of the main action leaves the environment as it was, only
    appends to the page, and sends at most one request; it sends one only
    after a button press with an uploaded file and a non-empty key, and
    that request is the one built from the decoded document. *)
Theorem main_action_frame
    (json_loads : pystr -> option json)
    (chat_completions_create : pystr -> request -> result response)
    (OpenAI_without_key : option pystr -> result pystr)
    (pd_DataFrame : list row -> list pystr -> result dataframe)
    (st_dataframe_renders : dataframe -> result unit)
    (to_csv : dataframe -> result pystr)
    (uploaded : option file) (button : bool) (w : world) :
  let w' := snd (main_action json_loads chat_completions_create OpenAI_without_key
                   pd_DataFrame st_dataframe_renders to_csv uploaded button w) in
  environ w' = environ w /\
  (exists ws, page w' = page w ++ ws) /\
  (length (sent w') <= length (sent w) + 1)%nat /\
  (sent w' = sent w \/
   exists f key, uploaded = Some f /\ button = true /\
                 environ w !! OPENAI_API_KEY = Some key /\ key <> [] /\
                 sent w' = sent w ++ [build_request (document f)]).
Proof.
  destruct (main_action_outcome json_loads chat_completions_create
              OpenAI_without_key pd_DataFrame st_dataframe_renders to_csv
              uploaded button w) as (req & ws & -> & Hreq).
  cbn [snd after environ sent page].
  split; [reflexivity|]. split; [exists ws; reflexivity|].
  split; [rewrite length_app; destruct req; cbn [length]; lia|].
  destruct Hreq as [-> | (f & key & Hu & Hb & Hk & Hne & ->)].
  - left. apply app_nil_r.
  - right. exists f, key. auto.
Qed.

(** X3. A key that is set to the empty string counts as missing: the page
    shows the configuration error and no request is sent. *)
Theorem empty_credential_sends_nothing
    (json_loads : pystr -> option json)
    (chat_completions_create : pystr -> request -> result response)
    (OpenAI_without_key : option pystr -> result pystr)
    (pd_DataFrame : list row -> list pystr -> result dataframe)
    (st_dataframe_renders : dataframe -> result unit)
    (to_csv : dataframe -> result pystr)
    (f : file) (w : world) :
  environ w !! OPENAI_API_KEY = Some [] ->
  main_action json_loads chat_completions_create OpenAI_without_key
      pd_DataFrame st_dataframe_renders to_csv (Some f) true w
    = (Ok tt,
       {| environ := environ w;
          sent := sent w;
          page := page w ++ [st_error (lit "OPENAI_API_KEY is not set. Please set it in your environment and retry.")] |}).
Proof.
  intros Hkey.
  rewrite main_action_blocked.
  - unfold after. rewrite app_nil_r. reflexivity.
  - replace (environ w !! OPENAI_API_KEY) with (Some (@nil N)) by (symmetry; exact Hkey).
    reflexivity.
Qed.

Lemma empty_credential_sends_nothing_witness :
  environ empty_key_world !! OPENAI_API_KEY = Some [] /\
  main_action sample_loads calling_service refusing_client plain_DataFrame rendering
      blank_csv (Some sample_file) true empty_key_world
    = (Ok tt,
       {| environ := environ empty_key_world;
          sent := [];
          page := [st_error (lit "OPENAI_API_KEY is not set. Please set it in your environment and retry.")] |}).
Proof.
  split; [vm_compute; reflexivity|].
  apply (empty_credential_sends_nothing sample_loads calling_service refusing_client
           plain_DataFrame rendering blank_csv sample_file empty_key_world).
  vm_compute. reflexivity.
Defined.

(** X4. When the request to the service fails, the failure is not raised
    further: after the spinner the page shows "Something went wrong" with
    the service's exception, and that one request is all that was sent. *)
Theorem service_error_is_shown
    (json_loads : pystr -> option json)
    (chat_completions_create : pystr -> request -> result response)
    (OpenAI_without_key : option pystr -> result pystr)
    (pd_DataFrame : list row -> list pystr -> result dataframe)
    (st_dataframe_renders : dataframe -> result unit)
    (to_csv : dataframe -> result pystr)
    (f : file) (w : world) (key : pystr) (e : exn) :
  environ w !! OPENAI_API_KEY = Some key -> key <> [] ->
  chat_completions_create key (build_request (document f)) = Raise e ->
  main_action json_loads chat_completions_create OpenAI_without_key
      pd_DataFrame st_dataframe_renders to_csv (Some f) true w
    = (Ok tt,
       {| environ := environ w;
          sent := sent w ++ [build_request (document f)];
          page := page w ++ [spinner; st_error_went_wrong e] |}).
Proof.
  intros Hkey Hne He.
  rewrite (main_action_pressed _ _ _ _ _ _ f w key Hkey Hne).
  rewrite (attempt_steps _ _ _ _ _ _ _ key (after w None [spinner]) Hkey Hne).
  rewrite He. cbn [rbind]. unfold after. cbn [environ sent page].
  rewrite !app_nil_r, <- !app_assoc. reflexivity.
Qed.

Lemma service_error_is_shown_witness :
  environ keyed_world !! OPENAI_API_KEY = Some (lit "sk-test") /\
  main_action sample_loads failing_service refusing_client plain_DataFrame rendering
      blank_csv (Some sample_file) true keyed_world
    = (Ok tt,
       {| environ := environ keyed_world;
          sent := [build_request (lit "Order" ++ [0xFFFD])];
          page := [spinner; st_error_went_wrong (OpenAIError (lit "Connection error."))] |}).
Proof.
  split; [vm_compute; reflexivity|].
  apply (service_error_is_shown sample_loads failing_service refusing_client
           plain_DataFrame rendering blank_csv
           sample_file keyed_world (lit "sk-test")).
  - vm_compute. reflexivity.
  - discriminate.
  - reflexivity.
Defined.

(** X5. When the service answers without a tool call, the page shows,
    after the spinner, "Something went wrong" with the runtime error
    "Model did not return a function call. ...", and nothing else. *)
Theorem missing_function_call_is_shown
    (json_loads : pystr -> option json)
    (chat_completions_create : pystr -> request -> result response)
    (OpenAI_without_key : option pystr -> result pystr)
    (pd_DataFrame : list row -> list pystr -> result dataframe)
    (st_dataframe_renders : dataframe -> result unit)
    (to_csv : dataframe -> result pystr)
    (f : file) (w : world) (key : pystr)
    (resp : response) (c : choice) (others : list choice) :
  environ w !! OPENAI_API_KEY = Some key -> key <> [] ->
  chat_completions_create key (build_request (document f)) = Ok resp ->
  choices resp = c :: others ->
  truthy_tool_calls (tool_calls (choice_message c)) = false ->
  main_action json_loads chat_completions_create OpenAI_without_key
      pd_DataFrame st_dataframe_renders to_csv (Some f) true w
    = (Ok tt,
       {| environ := environ w;
          sent := sent w ++ [build_request (document f)];
          page := page w ++
                  [spinner;
                   st_error_went_wrong
                     (RuntimeError (lit "Model did not return a function call. Try a smaller document or adjust content."))] |}).
Proof.
  intros Hkey Hne Hresp Hc Hcalls.
  rewrite (main_action_pressed _ _ _ _ _ _ f w key Hkey Hne).
  rewrite (attempt_steps _ _ _ _ _ _ _ key (after w None [spinner]) Hkey Hne).
  rewrite Hresp. cbn [rbind]. unfold scenarios_of_response. rewrite Hc.
  cbn [index0 rbind]. rewrite Hcalls. cbn [negb].
  unfold after. cbn [environ sent page].
  rewrite !app_nil_r, <- !app_assoc. reflexivity.
Qed.

Lemma missing_function_call_is_shown_witness :
  environ keyed_world !! OPENAI_API_KEY = Some (lit "sk-test") /\
  main_action rejecting_loads silent_service refusing_client plain_DataFrame rendering
      blank_csv (Some sample_file) true keyed_world
    = (Ok tt,
       {| environ := environ keyed_world;
          sent := [build_request (lit "Order" ++ [0xFFFD])];
          page := [spinner;
                   st_error_went_wrong
                     (RuntimeError (lit "Model did not return a function call. Try a smaller document or adjust content."))] |}).
Proof.
  split; [vm_compute; reflexivity|].
  apply (missing_function_call_is_shown rejecting_loads silent_service refusing_client
           plain_DataFrame rendering blank_csv
           sample_file keyed_world (lit "sk-test") silent_response
           {| choice_message := {| tool_calls := None |} |} []).
  - vm_compute. reflexivity.
  - discriminate.
  - reflexivity.
  - reflexivity.
  - reflexivity.
Defined.

(** The loop returns no row when every element is skipped. *)
Lemma normalize_all_skipped (items : list json) (acc : list row) :
  Forall (fun s => loop_body s = Ok None) items -> normalize items acc = Ok acc.
Proof.
  intros H. induction H as [|s rest Hs _ IH]; [reflexivity|].
  cbn [normalize]. rewrite Hs. exact IH.
Qed.

(** X6. When the first tool call's arguments are an object whose
    "scenarios" (the empty list if the key is missing) yield only elements
    that the module filter skips, no element among them, the page shows
    the warning "No integration flows found ..." after the spinner: no
    error, no table, no download. *)
Theorem no_survivor_shows_warning
    (json_loads : pystr -> option json)
    (chat_completions_create : pystr -> request -> result response)
    (OpenAI_without_key : option pystr -> result pystr)
    (pd_DataFrame : list row -> list pystr -> result dataframe)
    (st_dataframe_renders : dataframe -> result unit)
    (to_csv : dataframe -> result pystr)
    (f : file) (w : world) (key : pystr)
    (resp : response) (c : choice) (others : list choice)
    (call : tool_call) (calls : list tool_call)
    (d : list (pystr * json)) (items : list json) :
  environ w !! OPENAI_API_KEY = Some key -> key <> [] ->
  chat_completions_create key (build_request (document f)) = Ok resp ->
  choices resp = c :: others ->
  tool_calls (choice_message c) = Some (call :: calls) ->
  json_loads (arguments (function call)) = Some (JObj d) ->
  py_iter (dict_get d (lit "scenarios") (JList [])) = Ok items ->
  Forall (fun s => loop_body s = Ok None) items ->
  main_action json_loads chat_completions_create OpenAI_without_key
      pd_DataFrame st_dataframe_renders to_csv (Some f) true w
    = (Ok tt,
       {| environ := environ w;
          sent := sent w ++ [build_request (document f)];
          page := page w ++
                  [spinner;
                   st_warning (lit "No integration flows found (2+ modules). Check the document content.")] |}).
Proof.
  intros Hkey Hne Hresp Hc Hcalls Hparsed Hitems Hskip.
  rewrite (main_action_pressed _ _ _ _ _ _ f w key Hkey Hne).
  rewrite (attempt_steps _ _ _ _ _ _ _ key (after w None [spinner]) Hkey Hne).
  rewrite Hresp. cbn [rbind]. unfold scenarios_of_response, loads. rewrite Hc.
  cbn [index0 rbind]. rewrite Hcalls.
  cbn [truthy_tool_calls negb default from_option id index0 rbind].
  rewrite Hparsed. cbn [rbind method_get]. rewrite Hitems. cbn [rbind].
  rewrite (normalize_all_skipped items [] Hskip).
  unfold after. cbn [environ sent page].
  rewrite !app_nil_r, <- !app_assoc. reflexivity.
Qed.

Lemma no_survivor_shows_warning_witness :
  environ keyed_world !! OPENAI_API_KEY = Some (lit "sk-test") /\
  loop_body (JObj [(k_related, JList [JStr (lit "Billing")])]) = Ok None /\
  main_action single_module_loads calling_service refusing_client plain_DataFrame
      rendering blank_csv (Some sample_file) true keyed_world
    = (Ok tt,
       {| environ := environ keyed_world;
          sent := [build_request (lit "Order" ++ [0xFFFD])];
          page := [spinner;
                   st_warning (lit "No integration flows found (2+ modules). Check the document content.")] |}).
Proof.
  split; [vm_compute; reflexivity|]. split; [reflexivity|].
  apply (no_survivor_shows_warning single_module_loads calling_service refusing_client
           plain_DataFrame rendering blank_csv
           sample_file keyed_world (lit "sk-test") calling_response
           {| choice_message :=
                {| tool_calls := Some [ {| function := {| arguments := lit "{}" |} |} ] |} |}
           [] {| function := {| arguments := lit "{}" |} |} []
           [ (lit "scenarios", JList [JObj [(k_related, JList [JStr (lit "Billing")])]]) ]
           [JObj [(k_related, JList [JStr (lit "Billing")])]]).
  - vm_compute. reflexivity.
  - discriminate.
  - reflexivity.
  - reflexivity.
  - reflexivity.
  - reflexivity.
  - reflexivity.
  - constructor; [reflexivity|constructor].
Defined.

(** X7. When the extraction returns at least one row, what the page shows
    after the spinner depends on the four steps that can fail, in the
    order of the source: building the table from the rows and the five
    column names, displaying it, writing it as CSV text, and encoding that
    text as UTF-8.  The first step that raises ends the run with
    "Something went wrong" and its exception: nothing else is shown when
    the table cannot be built, only the success message when it cannot be
    displayed, the success message and the table when the CSV text cannot
    be written or encoded.  When no step raises, the page shows the
    success message, the table, and the download button with the bytes. *)
Theorem rows_are_shown
    (json_loads : pystr -> option json)
    (chat_completions_create : pystr -> request -> result response)
    (OpenAI_without_key : option pystr -> result pystr)
    (pd_DataFrame : list row -> list pystr -> result dataframe)
    (st_dataframe_renders : dataframe -> result unit)
    (to_csv : dataframe -> result pystr)
    (f : file) (w : world) (key : pystr)
    (resp : response) (rows : list row) :
  environ w !! OPENAI_API_KEY = Some key -> key <> [] ->
  chat_completions_create key (build_request (document f)) = Ok resp ->
  scenarios_of_response json_loads resp = Ok rows ->
  rows <> [] ->
  main_action json_loads chat_completions_create OpenAI_without_key
      pd_DataFrame st_dataframe_renders to_csv (Some f) true w
    = (Ok tt,
       {| environ := environ w;
          sent := sent w ++ [build_request (document f)];
          page := page w ++
            spinner ::
            match pd_DataFrame rows
                    [lit "Requirement Location (as per document)";
                     lit "Integration Flow Summary";
                     lit "Related Modules/Functions/Systems";
                     lit "Test Scenario (Integration)";
                     lit "Main/Alternate/Exception Flow"] with
            | Raise e => [st_error_went_wrong e]
            | Ok df =>
                st_success (lit "Extraction complete.") ::
                match st_dataframe_renders df with
                | Raise e => [st_error_went_wrong e]
                | Ok _ =>
                    st_dataframe df ::
                    match to_csv df with
                    | Raise e => [st_error_went_wrong e]
                    | Ok text =>
                        match utf8_encode text with
                        | Raise e => [st_error_went_wrong e]
                        | Ok data =>
                            [st_download_button (lit "Download CSV") data
                               (lit "integration_test_scenarios.csv") (lit "text/csv")]
                        end
                    end
                end
            end |}).
Proof.
  intros Hkey Hne Hresp Hrows Hnil.
  rewrite (main_action_pressed _ _ _ _ _ _ f w key Hkey Hne).
  rewrite (attempt_steps _ _ _ _ _ _ _ key (after w None [spinner]) Hkey Hne).
  rewrite Hresp. cbn [rbind]. rewrite Hrows.
  destruct rows as [|r rows]; [congruence|].
  rewrite publish_steps. change columns with
    [lit "Requirement Location (as per document)";
     lit "Integration Flow Summary";
     lit "Related Modules/Functions/Systems";
     lit "Test Scenario (Integration)";
     lit "Main/Alternate/Exception Flow"].
  destruct (pd_DataFrame (r :: rows) _) as [df|e].
  2:{ unfold after. cbn [environ sent page].
      rewrite !app_nil_r, <- !app_assoc. reflexivity. }
  destruct (st_dataframe_renders df) as [[]|e].
  2:{ unfold after. cbn [environ sent page].
      rewrite !app_nil_r, <- !app_assoc. reflexivity. }
  destruct (to_csv df) as [text|e]; cbn [rbind].
  2:{ unfold after. cbn [environ sent page].
      rewrite !app_nil_r, <- !app_assoc. reflexivity. }
  destruct (utf8_encode text) as [data|e];
    unfold after; cbn [environ sent page];
    rewrite !app_nil_r, <- !app_assoc; reflexivity.
Qed.

Lemma rows_are_shown_witness :
  environ keyed_world !! OPENAI_API_KEY = Some (lit "sk-test") /\
  scenarios_of_response sample_loads calling_response = Ok [bare_row] /\
  main_action sample_loads calling_service refusing_client plain_DataFrame rendering
      blank_csv (Some sample_file) true keyed_world
    = (Ok tt,
       {| environ := environ keyed_world;
          sent := [build_request (lit "Order" ++ [0xFFFD])];
          page := [spinner;
                   st_success (lit "Extraction complete.");
                   st_dataframe {| frame_columns := columns; frame_rows := [bare_row] |};
                   st_download_button (lit "Download CSV") []
                     (lit "integration_test_scenarios.csv") (lit "text/csv")] |}).
Proof.
  split; [vm_compute; reflexivity|]. split; [reflexivity|].
  apply (rows_are_shown sample_loads calling_service refusing_client
           plain_DataFrame rendering blank_csv
           sample_file keyed_world (lit "sk-test") calling_response [bare_row]).
  - vm_compute. reflexivity.
  - discriminate.
  - reflexivity.
  - reflexivity.
  - discriminate.
Defined.

(** A table that cannot be built leaves only the spinner and the error on
    the page: no success message, no table, no download. *)
Example unbuildable_table_shows_error_only :
  main_action sample_loads calling_service refusing_client refusing_DataFrame
      rendering blank_csv (Some sample_file) true keyed_world
    = (Ok tt,
       {| environ := environ keyed_world;
          sent := [build_request (lit "Order" ++ [0xFFFD])];
          page := [spinner; st_error_went_wrong UnicodeEncodeError] |}).
Proof. vm_compute. reflexivity. Qed.

(** ** The module filter and the loop *)

(** X8. An element is skipped exactly when it is an object and its
    modules field is missing, or falsy (null, false, zero, an empty
    string, list or object), or a list of fewer than two entries, blank
    entries counted. *)
Theorem element_skipped_iff (s : json) :
  loop_body s = Ok None <->
  (exists d, s = JObj d) /\
  (field s k_related = None \/
   exists v, field s k_related = Some v /\
     (truthy v = false \/ exists l, v = JList l /\ (length l < 2)%nat)).
Proof.
  rewrite loop_body_skips_iff. unfold modules_of, py_or. split.
  - intros (d & l & -> & Hm & Hl). split; [eauto|].
    destruct (field (JObj d) k_related) as [v|]; [|left; reflexivity].
    right. exists v. split; [reflexivity|].
    cbn [default from_option id] in Hm.
    destruct (truthy v); [|left; reflexivity].
    right. exists l. auto.
  - intros ((d & ->) & H). exists d.
    destruct H as [-> | (v & -> & H)].
    + exists []. cbn. auto.
    + cbn [default from_option id].
      destruct H as [-> | (l & -> & Hl)].
      * exists []. cbn. auto.
      * exists l. destruct (truthy (JList l)) eqn:E; [auto|].
        destruct l; [cbn; auto|discriminate].
Qed.

Lemma normalize_raises_at (pre post : list json) (s : json) (e : exn) (acc : list row) :
  Forall (fun x => exists o, loop_body x = Ok o) pre ->
  loop_body s = Raise e ->
  normalize (pre ++ s :: post) acc = Raise e.
Proof.
  intros Hpre Hs. revert acc.
  induction Hpre as [|x pre [o Ho] _ IH]; intros acc.
  - cbn [app normalize]. rewrite Hs. reflexivity.
  - cbn [app normalize]. rewrite Ho. destruct o; apply IH.
Qed.

Lemma normalize_Ok_all (scenarios : list json) (acc out : list row) :
  normalize scenarios acc = Ok out ->
  Forall (fun s => exists o, loop_body s = Ok o) scenarios.
Proof.
  revert acc. induction scenarios as [|s rest IH]; intros acc H; [constructor|].
  cbn [normalize] in H. destruct (loop_body s) as [o|] eqn:Hs; [|discriminate].
  constructor; [eauto|]. destruct o; eapply IH; exact H.
Qed.

(** X9. The normalisation is all or nothing: it returns rows exactly when
    no element makes the loop body raise, and the first element that does
    (one that is not an object, or whose modules cannot be iterated or
    hold a non-string) makes the whole loop raise that exception, the
    rows of the elements before it being lost. *)
Theorem normalize_all_or_nothing (scenarios : list json) :
  ((exists out, normalize scenarios [] = Ok out) <->
   Forall (fun s => exists o, loop_body s = Ok o) scenarios) /\
  (forall pre s post e,
     scenarios = pre ++ s :: post ->
     Forall (fun x => exists o, loop_body x = Ok o) pre ->
     loop_body s = Raise e ->
     normalize scenarios [] = Raise e).
Proof.
  split.
  - split.
    + intros (out & H). eapply normalize_Ok_all. exact H.
    + intros H. eexists. apply normalize_returns. exact H.
  - intros pre s post e -> Hpre Hs. apply normalize_raises_at; assumption.
Qed.

Lemma is_str_items (l : list json) :
  forallb is_str l = true -> exists names, l = map JStr names.
Proof.
  induction l as [|m l IH]; intros H; [exists []; reflexivity|].
  cbn [forallb] in H. apply andb_prop in H as [Hm Hl].
  destruct (IH Hl) as [names ->]. destruct m; try discriminate.
  exists (s :: names). reflexivity.
Qed.

Lemma loop_body_conforming (s : json) :
  conforming s = true ->
  exists o, loop_body s = Ok o /\
            (o = None <-> (module_count s < 2)%nat).
Proof.
  unfold conforming, module_count. intros H.
  destruct s as [| | | | |l0|d]; try discriminate.
  rewrite loop_body_object. unfold modules_of, py_or.
  destruct (field (JObj d) k_related) as [[| | | | |l|]|]; try discriminate.
  cbn [default from_option id].
  destruct (is_str_items l H) as [names ->].
  assert ((if truthy (JList (map JStr names)) then JList (map JStr names) else JList [])
          = JList (map JStr names)) as ->
    by (destruct names; reflexivity).
  destruct (length (map JStr names) <? 2)%nat eqn:Hl.
  - exists None. split; [reflexivity|]. apply Nat.ltb_lt in Hl. tauto.
  - rewrite stripped_names_strs. cbn [rbind]. eexists. split; [reflexivity|].
    apply Nat.ltb_ge in Hl. split; [discriminate|lia].
Qed.

(** X10. On a scenarios array whose elements all are objects with a list
    of strings as modules, the normalisation does not raise, and it
    returns one row for each element that has at least two module
    entries. *)
Theorem conforming_scenarios_are_normalized (scenarios : list json) :
  forallb conforming scenarios = true ->
  exists out,
    normalize scenarios [] = Ok out /\
    length out
      = length (List.filter (fun s => (2 <=? module_count s)%nat) scenarios).
Proof.
  intros H. exists (omap survivor scenarios). split.
  - apply (normalize_returns scenarios []).
    induction scenarios as [|s rest IH]; [constructor|].
    cbn [forallb] in H. apply andb_prop in H as [Hs Hrest].
    constructor; [|exact (IH Hrest)].
    destruct (loop_body_conforming s Hs) as (o & Ho & _). eauto.
  - induction scenarios as [|s rest IH]; [reflexivity|].
    cbn [forallb] in H. apply andb_prop in H as [Hs Hrest].
    cbn [omap list_omap List.filter]. unfold survivor at 1.
    destruct (loop_body_conforming s Hs) as (o & -> & Ho).
    destruct (2 <=? module_count s)%nat eqn:Hc.
    + apply Nat.leb_le in Hc. destruct o as [r|].
      * cbn [length]. rewrite (IH Hrest). reflexivity.
      * exfalso. assert (module_count s < 2)%nat by (apply Ho; reflexivity). lia.
    + apply Nat.leb_gt in Hc. destruct o as [r|].
      * apply Ho in Hc. discriminate.
      * exact (IH Hrest).
Qed.

Lemma conforming_scenarios_are_normalized_witness :
  forallb conforming [bare_element; blank_module_element;
                      JObj [(k_related, JList [JStr (lit "Billing")])]] = true /\
  exists out,
    normalize [bare_element; blank_module_element;
               JObj [(k_related, JList [JStr (lit "Billing")])]] [] = Ok out /\
    length out = 2%nat.
Proof.
  split; [reflexivity|].
  apply (conforming_scenarios_are_normalized
           [bare_element; blank_module_element;
            JObj [(k_related, JList [JStr (lit "Billing")])]]).
  reflexivity.
Defined.

Lemma element_skipped_iff_witness :
  loop_body (JObj [(k_related, JInt 0)]) = Ok None.
Proof.
  apply (element_skipped_iff (JObj [(k_related, JInt 0)])).
  split; [eexists; reflexivity|].
  right. exists (JInt 0). split; [reflexivity|]. left. reflexivity.
Defined.

Lemma normalize_all_or_nothing_witness :
  loop_body bare_element = Ok (Some bare_row) /\
  loop_body (JStr (lit "oops")) = Raise AttributeError /\
  normalize [bare_element; JStr (lit "oops"); string_modules_element] []
    = Raise AttributeError.
Proof.
  split; [reflexivity|]. split; [reflexivity|].
  apply (proj2 (normalize_all_or_nothing
                  [bare_element; JStr (lit "oops"); string_modules_element])
           [bare_element] (JStr (lit "oops")) [string_modules_element] AttributeError).
  - reflexivity.
  - constructor; [eexists; reflexivity|constructor].
  - reflexivity.
Defined.

(** ** Trimming *)

Lemma lstrip_head (s : pystr) (c : N) (t : pystr) :
  lstrip s = c :: t -> isspace c = false.
Proof.
  induction s as [|a s IH]; [discriminate|].
  cbn [lstrip]. destruct (isspace a) eqn:Ha; [exact IH|].
  intros [= <- _]. exact Ha.
Qed.

Lemma lstrip_snoc (s : pystr) (c : N) :
  isspace c = false -> lstrip (s ++ [c]) = lstrip s ++ [c].
Proof.
  intros Hc. induction s as [|a s IH].
  - cbn. rewrite Hc. reflexivity.
  - cbn [app lstrip]. destruct (isspace a); [exact IH|reflexivity].
Qed.

Lemma rstrip_cons (c : N) (t : pystr) :
  isspace c = false -> rstrip (c :: t) = c :: rstrip t.
Proof.
  intros Hc. unfold rstrip. cbn [rev].
  rewrite (lstrip_snoc _ _ Hc), rev_app_distr. reflexivity.
Qed.

Lemma rstrip_last (s pre : pystr) (c : N) :
  rstrip s = pre ++ [c] -> isspace c = false.
Proof.
  unfold rstrip. intros H.
  apply (f_equal (@rev N)) in H. rewrite rev_involutive, rev_app_distr in H.
  cbn [rev app] in H. eapply lstrip_head. exact H.
Qed.

(** The result of [strip] is empty or starts and ends with a character
    that is not whitespace. *)
Lemma strip_ends (s : pystr) :
  (forall c t, strip s = c :: t -> isspace c = false) /\
  (forall pre c, strip s = pre ++ [c] -> isspace c = false).
Proof.
  unfold strip. split.
  - intros c t H. destruct (lstrip s) as [|a x] eqn:Hx; [discriminate|].
    pose proof (lstrip_head _ _ _ Hx) as Ha.
    rewrite (rstrip_cons _ _ Ha) in H. injection H as <- _. exact Ha.
  - intros pre c H. eapply rstrip_last. exact H.
Qed.

Lemma rstrip_fixed (s : pystr) :
  (forall pre c, s = pre ++ [c] -> isspace c = false) -> rstrip s = s.
Proof.
  intros H. unfold rstrip.
  destruct (rev s) as [|c t] eqn:Hr.
  - apply (f_equal (@rev N)) in Hr. rewrite rev_involutive in Hr.
    subst s. reflexivity.
  - assert (s = rev t ++ [c]) as Hs.
    { apply (f_equal (@rev N)) in Hr. rewrite rev_involutive in Hr. exact Hr. }
    cbn [lstrip]. rewrite (H _ _ Hs). cbn [rev]. symmetry. exact Hs.
Qed.

Lemma lstrip_fixed (s : pystr) :
  (forall c t, s = c :: t -> isspace c = false) -> lstrip s = s.
Proof.
  intros H. destruct s as [|c t]; [reflexivity|].
  cbn [lstrip]. rewrite (H c t eq_refl). reflexivity.
Qed.

(** Trimming twice is trimming once. *)
Lemma strip_idempotent (s : pystr) : strip (strip s) = strip s.
Proof.
  destruct (strip_ends s) as [Hh Hl].
  unfold strip at 1. rewrite (lstrip_fixed _ Hh). apply rstrip_fixed. exact Hl.
Qed.

(** X11. The module names joined into the modules field of an output
    row are the entries that the element's modules value yields, without
    the blank ones, each trimmed; every one of these names is non-empty and
    has no whitespace at either end: it starts and ends with a character
    that is not whitespace, and trimming it again changes nothing. *)
Theorem row_names_are_trimmed (s : json) (r : row) :
  loop_body s = Ok (Some r) ->
  exists entries,
    py_iter (modules_of s) = Ok (map JStr entries) /\
    related r = join (lit ", ") (map strip (List.filter nonblank entries)) /\
    Forall (fun n =>
              n <> [] /\ strip n = n /\
              (forall c t, n = c :: t -> isspace c = false) /\
              (forall pre c, n = pre ++ [c] -> isspace c = false))
           (map strip (List.filter nonblank entries)).
Proof.
  intros H.
  apply loop_body_Some_inv in H as (v & entries & _ & _ & Hm & Hit & -> & _).
  exists entries. rewrite Hm. split; [exact Hit|]. split; [reflexivity|].
  apply Forall_forall. intros n Hn.
  apply list_elem_of_In, in_map_iff in Hn as (e & <- & He).
  apply filter_In in He as [_ He]. unfold nonblank in He.
  destruct (strip_ends e) as [Hh Hl].
  repeat split.
  - destruct (strip e); [discriminate|discriminate].
  - apply strip_idempotent.
  - exact Hh.
  - exact Hl.
Qed.

Lemma row_names_are_trimmed_witness :
  loop_body bare_element = Ok (Some bare_row) /\
  exists entries,
    py_iter (modules_of bare_element) = Ok (map JStr entries) /\
    related bare_row = join (lit ", ") (map strip (List.filter nonblank entries)) /\
    Forall (fun n =>
              n <> [] /\ strip n = n /\
              (forall c t, n = c :: t -> isspace c = false) /\
              (forall pre c, n = pre ++ [c] -> isspace c = false))
           (map strip (List.filter nonblank entries)).
Proof.
  split; [reflexivity|].
  apply (row_names_are_trimmed bare_element bare_row). reflexivity.
Defined.

(** ** The UTF-8 codec *)

Lemma emit_inv (ch : N) (r : result pystr) (t : pystr) :
  emit ch r = Ok t -> exists t', r = Ok t' /\ t = ch :: t'.
Proof.
  unfold emit. destruct r as [t'|]; [|discriminate].
  intros [= <-]. eauto.
Qed.

Lemma on_error_inv (errors : error_handler) (r : result pystr) (t : pystr) :
  on_error errors r = Ok t -> exists t', r = Ok t' /\ t = 0xFFFD :: t'.
Proof.
  destruct errors; [discriminate|]. cbn [on_error].
  destruct r as [t'|]; [|discriminate]. intros [= <-]. eauto.
Qed.

(** Splits on the comparison that decides the next branch of the decoder,
    keeping what is learnt as a hypothesis. *)
Ltac split_cond :=
  match goal with
  | |- context [if ?c then _ else _] =>
      lazymatch c with
      | context [N.ltb ?a ?b] => destruct (N.ltb_spec a b)
      | context [N.leb ?a ?b] => destruct (N.leb_spec a b)
      | context [N.eqb ?a ?b] => destruct (N.eqb_spec a b)
      end; cbn [negb orb andb]
  | |- context [match ?l with [] => _ | _ :: _ => _ end] => is_var l; destruct l
  end.

Ltac shifts_to_products :=
  rewrite ?N.shiftl_mul_pow2 in *;
  change (2 ^ 6) with 64 in *; change (2 ^ 12) with 4096 in *;
  change (2 ^ 18) with 262144 in *.

Lemma scalar_intro (v : N) :
  v < 0x110000 -> (v < 0xD800 \/ 0xDFFF < v) -> scalar v = true.
Proof.
  intros H1 H2. unfold scalar, surrogate.
  apply andb_true_intro. split; [apply N.ltb_lt; exact H1|].
  apply negb_true_iff, andb_false_iff.
  destruct H2 as [H2|H2]; [left; apply N.leb_gt|right; apply N.leb_gt]; exact H2.
Qed.

Lemma utf8_decode_sound_upto (errors : error_handler) (n : nat) (s : list byte) (t : pystr) :
  (length s <= n)%nat ->
  utf8_decode errors s = Ok t ->
  forallb scalar t = true /\ (length t <= length s)%nat.
Proof.
  revert s t. induction n as [|n IH]; intros s t Hn.
  - destruct s; [|cbn in Hn; lia]. intros [= <-]. auto.
  - destruct s as [|c1 s1]; [intros [= <-]; auto|].
    cbn [utf8_decode]. cbv zeta. unfold is_continuation.
    repeat split_cond; intros Hdec;
      first
        [ apply emit_inv in Hdec as (t' & Hdec & ->)
        | apply on_error_inv in Hdec as (t' & Hdec & ->) ];
      first
        [ injection Hdec as <-
        | apply IH in Hdec as [Hs Hl]; [|cbn [length] in *; lia] ];
      (split; [|cbn [length] in *; lia]);
      cbn [forallb]; apply andb_true_intro;
      (split; [|first [assumption|reflexivity]]);
      first [reflexivity | apply scalar_intro; shifts_to_products; lia].
Qed.

(** What the decoder returns holds only code points that UTF-8 can carry,
    and no more of them than there were bytes. *)
Lemma utf8_decode_sound (errors : error_handler) (s : list byte) (t : pystr) :
  utf8_decode errors s = Ok t ->
  forallb scalar t = true /\ (length t <= length s)%nat.
Proof. apply (utf8_decode_sound_upto errors (length s)). lia. Qed.

Lemma utf8_encode_char_surrogate (c : N) :
  surrogate c = true -> utf8_encode_char c = Raise UnicodeEncodeError.
Proof.
  unfold surrogate, utf8_encode_char. intros H.
  apply andb_prop in H as [H1 H2]. rewrite H1, H2.
  apply N.leb_le in H1.
  destruct (N.ltb_spec c 0x80); [lia|]. destruct (N.ltb_spec c 0x800); [lia|].
  reflexivity.
Qed.

Lemma utf8_encode_char_other (c : N) :
  surrogate c = false -> exists bs, utf8_encode_char c = Ok bs.
Proof.
  unfold surrogate, utf8_encode_char. intros ->.
  destruct (c <? 0x80); [eauto|]. destruct (c <? 0x800); [eauto|].
  destruct (c <? 0x10000); eauto.
Qed.

Lemma utf8_encode_returns_iff (s : pystr) :
  (exists bs, utf8_encode s = Ok bs) <-> existsb surrogate s = false.
Proof.
  induction s as [|c s IH]; cbn [utf8_encode existsb].
  - split; [reflexivity|eauto].
  - destruct (surrogate c) eqn:Hc.
    + rewrite (utf8_encode_char_surrogate c Hc). cbn.
      split; [intros (bs & [=])|discriminate].
    + destruct (utf8_encode_char_other c Hc) as (bc & ->). cbn [rbind orb].
      rewrite <- IH. split.
      * intros (bs & H). destruct (utf8_encode s); [eauto|discriminate].
      * intros (bs & ->). cbn. eauto.
Qed.

Lemma utf8_encode_raises (s : pystr) (e : exn) :
  utf8_encode s = Raise e -> e = UnicodeEncodeError.
Proof.
  induction s as [|c s IH]; cbn [utf8_encode]; [discriminate|].
  destruct (surrogate c) eqn:Hc.
  - rewrite (utf8_encode_char_surrogate c Hc). cbn. congruence.
  - destruct (utf8_encode_char_other c Hc) as (bc & ->). cbn [rbind].
    destruct (utf8_encode s); [discriminate|]. cbn. intros [= <-]. apply IH. reflexivity.
Qed.

Lemma scalar_not_surrogate (t : pystr) :
  forallb scalar t = true -> existsb surrogate t = false.
Proof.
  induction t as [|c t IH]; [reflexivity|].
  cbn [forallb existsb]. intros H. apply andb_prop in H as [Hc Ht].
  rewrite (IH Ht). unfold scalar in Hc. apply andb_prop in Hc as [_ Hc].
  apply negb_true_iff in Hc. rewrite Hc. reflexivity.
Qed.

(** X12. Encoding a text as UTF-8 fails exactly when the text holds a
    surrogate code point, and then with [UnicodeEncodeError]; every other
    text is encoded. *)
Theorem utf8_encode_fails_iff_surrogate (s : pystr) :
  (utf8_encode s = Raise UnicodeEncodeError <-> existsb surrogate s = true) /\
  ((exists bs, utf8_encode s = Ok bs) <-> existsb surrogate s = false).
Proof.
  split; [|apply utf8_encode_returns_iff].
  pose proof (utf8_encode_returns_iff s) as H.
  destruct (utf8_encode s) as [bs|e] eqn:E.
  - split; [discriminate|]. intros Hs.
    assert (existsb surrogate s = false) by (apply H; eauto). congruence.
  - rewrite (utf8_encode_raises s e E). split; [|reflexivity].
    intros _. destruct (existsb surrogate s); [reflexivity|].
    destruct (proj2 H eq_refl) as (bs & [=]).
Qed.

Lemma utf8_encode_fails_iff_surrogate_witness :
  utf8_encode (lit "a" ++ [0xD83D] ++ lit "b") = Raise UnicodeEncodeError.
Proof.
  apply (utf8_encode_fails_iff_surrogate (lit "a" ++ [0xD83D] ++ lit "b")).
  reflexivity.
Defined.

(** X13. The text [read_text] returns can always be encoded as UTF-8
    again: it holds no surrogate and no code point above U+10FFFF,
    whatever the bytes of the file were. *)
Theorem read_text_result_is_encodable (f : file) :
  forallb scalar (document f) = true /\
  exists bs, utf8_encode (document f) = Ok bs.
Proof.
  destruct (read_text_returns f) as (text & Ht & Hr).
  assert (document f = text) as ->
    by (unfold document; rewrite Hr; reflexivity).
  destruct (utf8_decode_sound _ _ _ Ht) as [Hs _].
  split; [exact Hs|]. apply utf8_encode_returns_iff, scalar_not_surrogate, Hs.
Qed.

(** X14. The text [read_text] returns has at most as many characters as
    the file had bytes left to read. *)
Theorem read_text_length (f : file) :
  (length (document f) <= length (content f) - position f)%nat.
Proof.
  destruct (read_text_returns f) as (text & Ht & Hr).
  assert (document f = text) as ->
    by (unfold document; rewrite Hr; reflexivity).
  destruct (utf8_decode_sound _ _ _ Ht) as [_ Hl].
  cbn [file_read fst] in Hl. rewrite length_drop in Hl. exact Hl.
Qed.

(** X15. [read_text] reads the file to its end: reading the same file
    object again gives the empty string, not the document. *)
Theorem read_text_consumes_file (f : file) :
  fst (read_text (snd (read_text f))) = Ok [].
Proof.
  destruct (read_text_returns f) as (text & _ & ->). cbn [snd].
  unfold read_text, file_read. cbn [content position fst snd].
  rewrite drop_ge by (apply Nat.le_max_r). reflexivity.
Qed.

(** ** Round trip through UTF-8 *)

Lemma to_N_byte_of_N (n : N) : n < 256 -> Byte.to_N (byte_of_N n) = n.
Proof.
  intros H. unfold byte_of_N. destruct (Byte.of_N n) as [b|] eqn:E.
  - apply Byte.to_of_N. exact E.
  - apply Byte.of_N_None_iff in E. lia.
Qed.

Lemma N_lt_cases (P : N -> Prop) (n : nat) :
  (forall k, (k < n)%nat -> P (N.of_nat k)) -> forall x, x < N.of_nat n -> P x.
Proof. intros H x Hx. rewrite <- (N2Nat.id x). apply H. lia. Qed.

Lemma lor_continuation (x : N) : x < 64 -> N.lor 0x80 x = 0x80 + x.
Proof.
  revert x. apply (N_lt_cases _ 64). intros k Hk.
  do 64 (destruct k as [|k]; [reflexivity|]). lia.
Qed.

Lemma lor_lead2 (x : N) : x < 32 -> N.lor 0xC0 x = 0xC0 + x.
Proof.
  revert x. apply (N_lt_cases _ 32). intros k Hk.
  do 32 (destruct k as [|k]; [reflexivity|]). lia.
Qed.

Lemma lor_lead3 (x : N) : x < 16 -> N.lor 0xE0 x = 0xE0 + x.
Proof.
  revert x. apply (N_lt_cases _ 16). intros k Hk.
  do 16 (destruct k as [|k]; [reflexivity|]). lia.
Qed.

Lemma lor_lead4 (x : N) : x < 8 -> N.lor 0xF0 x = 0xF0 + x.
Proof.
  revert x. apply (N_lt_cases _ 8). intros k Hk.
  do 8 (destruct k as [|k]; [reflexivity|]). lia.
Qed.

Lemma shiftr_6 (c : N) : N.shiftr c 6 = c / 64.
Proof. rewrite N.shiftr_div_pow2. reflexivity. Qed.

Lemma shiftr_12 (c : N) : N.shiftr c 12 = c / 4096.
Proof. rewrite N.shiftr_div_pow2. reflexivity. Qed.

Lemma shiftr_18 (c : N) : N.shiftr c 18 = c / 262144.
Proof. rewrite N.shiftr_div_pow2. reflexivity. Qed.

Lemma land_63 (x : N) : N.land x 0x3F = x mod 64.
Proof. change 0x3F with (N.ones 6). rewrite N.land_ones. reflexivity. Qed.

Lemma split_6 (c : N) : c = 64 * (c / 64) + c mod 64 /\ c mod 64 < 64.
Proof. split; [apply N.div_mod'|apply N.mod_lt; lia]. Qed.

Lemma div_4096 (c : N) : c / 4096 = c / 64 / 64.
Proof. rewrite N.Div0.div_div. reflexivity. Qed.

Lemma div_262144 (c : N) : c / 262144 = c / 4096 / 64.
Proof. rewrite N.Div0.div_div. reflexivity. Qed.

(** Brings the quotients and remainders by 64 of [c] within reach of
    linear arithmetic. *)
Ltac euclid c :=
  pose proof (split_6 c) as [? ?];
  pose proof (split_6 (c / 64)) as [? ?];
  pose proof (split_6 (c / 4096)) as [? ?];
  pose proof (div_4096 c);
  pose proof (div_262144 c);
  let r1 := fresh "r" in set (r1 := c mod 64) in *; clearbody r1;
  let r2 := fresh "r" in set (r2 := (c / 64) mod 64) in *; clearbody r2;
  let q2 := fresh "q" in set (q2 := c / 64 / 64) in *; clearbody q2;
  let q1 := fresh "q" in set (q1 := c / 64) in *; clearbody q1;
  let r3 := fresh "r" in set (r3 := (c / 4096) mod 64) in *; clearbody r3;
  let q4 := fresh "q" in set (q4 := c / 4096 / 64) in *; clearbody q4;
  let q3 := fresh "q" in set (q3 := c / 4096) in *; clearbody q3;
  let q5 := fresh "q" in set (q5 := c / 262144) in *; clearbody q5.

Lemma continuation_byte (x : N) :
  Byte.to_N (byte_of_N (N.lor 0x80 (N.land x 0x3F))) = 0x80 + x mod 64.
Proof.
  rewrite land_63. assert (x mod 64 < 64) by (apply N.mod_lt; lia).
  rewrite lor_continuation by assumption. apply to_N_byte_of_N. lia.
Qed.

Lemma lead2_byte (c : N) :
  c < 0x800 -> Byte.to_N (byte_of_N (N.lor 0xC0 (N.shiftr c 6))) = 0xC0 + c / 64.
Proof.
  intros H. rewrite shiftr_6. assert (c / 64 < 32) by (apply N.Div0.div_lt_upper_bound; lia).
  rewrite lor_lead2 by assumption. apply to_N_byte_of_N. lia.
Qed.

Lemma lead3_byte (c : N) :
  c < 0x10000 -> Byte.to_N (byte_of_N (N.lor 0xE0 (N.shiftr c 12))) = 0xE0 + c / 4096.
Proof.
  intros H. rewrite shiftr_12. assert (c / 4096 < 16) by (apply N.Div0.div_lt_upper_bound; lia).
  rewrite lor_lead3 by assumption. apply to_N_byte_of_N. lia.
Qed.

Lemma lead4_byte (c : N) :
  c < 0x110000 -> Byte.to_N (byte_of_N (N.lor 0xF0 (N.shiftr c 18))) = 0xF0 + c / 262144.
Proof.
  intros H. rewrite shiftr_18. assert (c / 262144 < 8) by (apply N.Div0.div_lt_upper_bound; lia).
  rewrite lor_lead4 by assumption. apply to_N_byte_of_N. lia.
Qed.

(** The bytes that encode one code point are decoded as that code point,
    whatever follows them. *)
Lemma utf8_decode_encoded_char
    (errors : error_handler) (c : N) (bs rest : list byte) :
  scalar c = true ->
  utf8_encode_char c = Ok bs ->
  utf8_decode errors (bs ++ rest) = emit c (utf8_decode errors rest).
Proof.
  unfold scalar. intros Hc. apply andb_prop in Hc as [Hmax Hsur].
  apply N.ltb_lt in Hmax. apply negb_true_iff in Hsur.
  unfold utf8_encode_char. unfold surrogate in Hsur. rewrite Hsur.
  apply andb_false_iff in Hsur.
  assert (c < 0xD800 \/ 0xDFFF < c) as Hrange
    by (destruct Hsur as [H|H]; apply N.leb_gt in H; lia).
  clear Hsur.
  destruct (N.ltb_spec c 0x80) as [H1|H1].
  { intros [= <-]. cbn [app utf8_decode]. cbv zeta.
    rewrite to_N_byte_of_N by lia.
    destruct (N.ltb_spec c 0x80); [reflexivity|lia]. }
  destruct (N.ltb_spec c 0x800) as [H2|H2].
  { intros [= <-]. cbn [app utf8_decode]. cbv zeta.
    rewrite continuation_byte, (lead2_byte c H2). euclid c.
    unfold is_continuation. repeat (split_cond; try (exfalso; lia));
      f_equal; shifts_to_products; lia. }
  destruct (N.ltb_spec c 0x10000) as [H3|H3].
  { intros [= <-]. cbn [app utf8_decode]. cbv zeta.
    rewrite !continuation_byte, (lead3_byte c H3), shiftr_6. euclid c.
    unfold is_continuation. repeat (split_cond; try (exfalso; lia));
      f_equal; shifts_to_products; lia. }
  intros [= <-]. cbn [app utf8_decode]. cbv zeta.
  rewrite !continuation_byte, (lead4_byte c Hmax), shiftr_6, shiftr_12. euclid c.
  unfold is_continuation. repeat (split_cond; try (exfalso; lia));
    f_equal; shifts_to_products; lia.
Qed.

Lemma utf8_decode_encoded
    (errors : error_handler) (s : pystr) (bs : list byte) :
  forallb scalar s = true -> utf8_encode s = Ok bs -> utf8_decode errors bs = Ok s.
Proof.
  revert bs. induction s as [|c s IH]; intros bs Hs He.
  - injection He as <-. reflexivity.
  - cbn [forallb] in Hs. apply andb_prop in Hs as [Hc Hs].
    cbn [utf8_encode] in He.
    destruct (utf8_encode_char c) as [bc|] eqn:Ec; [|discriminate].
    destruct (utf8_encode s) as [bs'|] eqn:Es; [|discriminate].
    cbn [rbind] in He. injection He as <-.
    rewrite (utf8_decode_encoded_char errors c bc bs' Hc Ec).
    rewrite (IH bs' Hs eq_refl). reflexivity.
Qed.

(** X16. A text without surrogates and within U+10FFFF survives the round
    trip: it can be encoded as UTF-8, and [read_text] on a file holding
    those bytes returns the text itself, with no replacement character
    put in. *)
Theorem read_text_round_trip (s : pystr) :
  forallb scalar s = true ->
  exists bs,
    utf8_encode s = Ok bs /\
    fst (read_text {| content := bs; position := 0 |}) = Ok s.
Proof.
  intros Hs.
  destruct (proj2 (utf8_encode_returns_iff s) (scalar_not_surrogate s Hs)) as (bs & He).
  exists bs. split; [exact He|].
  unfold read_text, file_read. cbn [content position]. rewrite drop_0.
  rewrite (utf8_decode_encoded Replace s bs Hs He). reflexivity.
Qed.

Lemma read_text_round_trip_witness :
  forallb scalar [0x1F600; 0x20AC; 0xE9; 0x41] = true /\
  exists bs,
    utf8_encode [0x1F600; 0x20AC; 0xE9; 0x41] = Ok bs /\
    fst (read_text {| content := bs; position := 0 |}) = Ok [0x1F600; 0x20AC; 0xE9; 0x41].
Proof.
  split; [reflexivity|].
  apply (read_text_round_trip [0x1F600; 0x20AC; 0xE9; 0x41]). reflexivity.
Defined.

(** ** The extraction and the fields it copies *)

Lemma text_of_present (s : json) (k : pystr) (v : json) :
  field s k = Some v -> truthy v = true -> text_of s k = v.
Proof.
  intros H Hv. unfold text_of, py_or. rewrite H.
  cbn [default from_option id]. rewrite Hv. reflexivity.
Qed.

(** X18. A text field or flow classification that is present and truthy
    is copied into the row as it is, whatever JSON value it is: a number,
    [true], a list or an object is not turned into a string, and a string
    is neither trimmed nor checked against the five flow types. *)
Theorem truthy_fields_are_copied (s : json) (r : row) :
  loop_body s = Ok (Some r) ->
  (forall v, field s k_requirement_location = Some v -> truthy v = true -> loc r = v) /\
  (forall v, field s k_integration_flow_summary = Some v -> truthy v = true -> summary r = v) /\
  (forall v, field s k_test_scenario_integration = Some v -> truthy v = true -> scenario r = v) /\
  (forall v, field s k_flow_type = Some v -> truthy v = true -> ftype r = v).
Proof.
  intros H. apply loop_body_Some_inv in H as (v & names & _ & _ & _ & _ & -> & _).
  cbn [row_of loc summary scenario ftype].
  repeat split; intros v'; apply text_of_present.
Qed.

Lemma truthy_fields_are_copied_witness :
  loop_body numbered_element = Ok (Some numbered_row) /\
  field numbered_element k_requirement_location = Some (JInt 7) /\
  loc numbered_row = JInt 7.
Proof.
  split; [reflexivity|]. split; [reflexivity|].
  apply (proj1 (truthy_fields_are_copied numbered_element numbered_row eq_refl) (JInt 7));
    reflexivity.
Defined.
